(** * Sagashi scrape endpoint: a shallow embedding of [app/api/scrape/route.ts]

    The route renders a page through a shared headless browser, parses the
    rendered markup and assembles one JSON record.  The handler is embedded as
    a state-and-exception computation over an explicit record of the outcomes
    of every call into the browser engine, the DOM library and the platform
    builtins; the string and list manipulations of the extraction step are
    embedded as total functions on UTF-16 code units. *)

From Stdlib Require Import List Bool Arith ZArith NArith Lia String Ascii.
From Stdlib Require Import DecimalString.
Import ListNotations.

Set Implicit Arguments.
Set Warnings "-register-all".

(** ** JavaScript strings *)

(** A JavaScript string is a finite sequence of UTF-16 code units. *)
Definition jsstring := list N.

(** ASCII literals of the source, as code units. *)
Definition str (s : string) : jsstring :=
  List.map N_of_ascii (list_ascii_of_string s).

Definition jseqb (a b : jsstring) : bool :=
  if list_eq_dec N.eq_dec a b then true else false.

Definition nonempty (s : jsstring) : bool :=
  match s with [] => false | _ :: _ => true end.

(** The code units removed by [String.prototype.trim] and matched by the
    regular-expression class [\s]: WhiteSpace and LineTerminator of
    ECMA-262 (TAB, LF, VT, FF, CR, SP, NBSP, the Zs category, LS, PS and
    the byte-order mark). *)
Definition is_ws (c : N) : bool :=
  (((9 <=? c) && (c <=? 13)) || (c =? 32) || (c =? 160) || (c =? 5760)
   || ((8192 <=? c) && (c <=? 8202)) || (c =? 8232) || (c =? 8233)
   || (c =? 8239) || (c =? 8287) || (c =? 12288) || (c =? 65279))%N.

Definition LF : N := 10%N.

Fixpoint trimStart (s : jsstring) : jsstring :=
  match s with
  | [] => []
  | c :: s' => if is_ws c then trimStart s' else s
  end.

Definition trimEnd (s : jsstring) : jsstring := rev (trimStart (rev s)).

(** [s.trim()] *)
Definition trim (s : jsstring) : jsstring := trimEnd (trimStart s).

(** [s.split(sep)] for a one-unit separator: the pieces between the
    occurrences of [sep]; the empty string gives one empty piece. *)
Fixpoint split_on (sep : N) (s : jsstring) : list jsstring :=
  match s with
  | [] => [[]]
  | c :: s' =>
      if (c =? sep)%N then [] :: split_on sep s'
      else match split_on sep s' with
           | l :: ls => (c :: l) :: ls
           | [] => [[c]]
           end
  end.

(** [pieces.join(sep)] *)
Fixpoint join (sep : jsstring) (pieces : list jsstring) : jsstring :=
  match pieces with
  | [] => []
  | [p] => p
  | p :: rest => p ++ sep ++ join sep rest
  end.

(** [s.split(/\s+/)]: the pieces between the maximal runs of white space.
    [in_sep] records that the previous unit belonged to the separator that
    is being matched. *)
Fixpoint split_ws_from (in_sep : bool) (s : jsstring) : list jsstring :=
  match s with
  | [] => [[]]
  | c :: s' =>
      if is_ws c then
        if in_sep then split_ws_from true s'
        else [] :: split_ws_from true s'
      else match split_ws_from false s' with
           | t :: ts => (c :: t) :: ts
           | [] => [[c]]
           end
  end.

Definition split_ws (s : jsstring) : list jsstring := split_ws_from false s.

(** Lines 78-82: [cleanedTextContent]. *)
Definition cleanedTextContent (rawTextContent : jsstring) : jsstring :=
  join [LF; LF]
    (filter (fun line => nonempty line)
       (List.map (fun line => trim line) (split_on LF rawTextContent))).

(** ** JavaScript values *)

(** The values the handler can meet: what [JSON.parse] produces, plus
    [undefined].  Numbers are restricted to integers; the handler only tests
    a number for being zero, prints it, or hands it to the browser. *)
Inductive JsVal : Type :=
| JUndefined
| JNull
| JBool (b : bool)
| JNum (n : Z)
| JStr (s : jsstring)
| JArr (items : list JsVal)
| JObj (fields : list (jsstring * JsVal)).

(** ToBoolean, as used by [!v], [v || w], [if (v)] and [filter(Boolean)]. *)
Definition truthy (v : JsVal) : bool :=
  match v with
  | JUndefined | JNull => false
  | JBool b => b
  | JNum n => negb (n =? 0)%Z
  | JStr s => nonempty s
  | JArr _ | JObj _ => true
  end.

(** [v || w] *)
Definition js_or (v w : JsVal) : JsVal := if truthy v then v else w.

Fixpoint lookup (k : jsstring) (fields : list (jsstring * JsVal)) : JsVal :=
  match fields with
  | [] => JUndefined
  | (k', v) :: rest => if jseqb k k' then v else lookup k rest
  end.

(** [v?.k] for the property names the handler reads ([url], [options],
    [timeout], [blockResources], [screenshot], [postWait], [userAgent],
    [message]): an own property of an object, [undefined] on anything else
    (no primitive wrapper and no array carries one of these names). *)
Definition field (v : JsVal) (k : string) : JsVal :=
  match v with
  | JObj fields => lookup (str k) fields
  | _ => JUndefined
  end.

(** ToString, as applied by [new URL(v)]. *)
Fixpoint ToString (v : JsVal) : jsstring :=
  match v with
  | JUndefined => str "undefined"
  | JNull => str "null"
  | JBool true => str "true"
  | JBool false => str "false"
  | JNum n => str (NilZero.string_of_int (Z.to_int n))
  | JStr s => s
  | JArr items =>
      join (str ",")
        (List.map (fun x => match x with
                            | JUndefined | JNull => []
                            | _ => ToString x
                            end) items)
  | JObj _ => str "[object Object]"
  end.

(** ** Outcomes of calls that may throw *)

Inductive Outcome (A : Type) : Type :=
| Ok (a : A)
| Throws (err : JsVal).
Arguments Ok {A} a.
Arguments Throws {A} err.

Definition is_ok {A} (o : Outcome A) : bool :=
  match o with Ok _ => true | Throws _ => false end.

(** ** The rendered document, as far as the handler queries it *)

Record Document : Type := {
  (** [doc.querySelector("title")?.textContent] *)
  doc_title : option jsstring;
  (** [doc.querySelector(`meta[name="n"]`)?.getAttribute("content")] *)
  doc_meta_name : string -> option jsstring;
  (** [doc.querySelector(`meta[property="n"]`)?.getAttribute("content")] *)
  doc_meta_property : string -> option jsstring;
  (** [doc.querySelector('link[rel="canonical"]')?.getAttribute("href")] *)
  doc_canonical : option jsstring;
  (** [textContent] of every [script[type="application/ld+json"]] *)
  doc_ld_json : list (option jsstring);
  (** [.href] of every [a[href]], in document order *)
  doc_anchors : list jsstring;
  (** [tagName] and [textContent] of every [h1,h2,h3] *)
  doc_headings : list (jsstring * option jsstring);
  (** [.src] and [getAttribute("alt")] of every [img] *)
  doc_imgs : list (jsstring * option jsstring);
  (** [doc.body?.textContent] *)
  doc_body_text : option jsstring
}.

(** A property typed [string | null | undefined]. *)
Inductive MaybeText : Type :=
| TUndefined
| TNull
| TText (s : jsstring).

(** What [Readability.parse] returns, as far as the handler reads it. *)
Record Article : Type := {
  art_title : MaybeText;
  art_excerpt : MaybeText;
  art_content : MaybeText;
  art_textContent : MaybeText
}.

(** [a || b] on such a property. *)
Definition text_or (a : MaybeText) (b : jsstring) : jsstring :=
  match a with
  | TText (c :: s) => c :: s
  | _ => b
  end.

(** [a || b] on a possibly absent string. *)
Definition or_str (a : option jsstring) (b : jsstring) : jsstring :=
  match a with
  | Some (c :: s) => c :: s
  | _ => b
  end.

(** ** The extraction step (lines 77-121) *)

(** Line 77. *)
Definition rawTextContent (article : option Article) : jsstring :=
  text_or (match article with
           | Some a => art_textContent a
           | None => TUndefined
           end) [].

(** Lines 85-88. *)
Definition getMeta (doc : Document) (name : string) : jsstring :=
  or_str (doc_meta_name doc name) (or_str (doc_meta_property doc name) []).

(** Line 90. *)
Definition title (doc : Document) (article : option Article) : jsstring :=
  trim (or_str (doc_title doc)
          (text_or (match article with
                    | Some a => art_title a
                    | None => TUndefined
                    end) [])).

(** Line 91. *)
Definition description (doc : Document) : jsstring :=
  let d := getMeta doc "description" in
  if nonempty d then d
  else let og := getMeta doc "og:description" in
       if nonempty og then og else getMeta doc "twitter:description".

(** Line 92. *)
Definition ogImage (doc : Document) : jsstring :=
  let og := getMeta doc "og:image" in
  if nonempty og then og else getMeta doc "twitter:image".

(** Line 93. *)
Definition canonical (doc : Document) : jsstring :=
  or_str (doc_canonical doc) [].

(** Lines 96-102: one script body through the [try]/[catch] of the map. *)
Definition parse_or_raw (JSON_parse : jsstring -> option JsVal)
    (textContent : option jsstring) : JsVal :=
  match JSON_parse (or_str textContent []) with
  | Some v => v
  | None => match textContent with
            | Some (c :: s) => JStr (c :: s)
            | _ => JNull
            end
  end.

(** The array built from the script bodies, in document order. *)
Definition jsonLd (JSON_parse : jsstring -> option JsVal)
    (scripts : list (option jsstring)) : list JsVal :=
  filter truthy (List.map (parse_or_raw JSON_parse) scripts).

(** [Array.from(new Set(xs))]: a set keeps its members in insertion order
    and ignores the insertion of a member it already holds. *)
Definition Set_add (members : list jsstring) (x : jsstring) : list jsstring :=
  if existsb (jseqb x) members then members else members ++ [x].

Definition Array_from_Set (xs : list jsstring) : list jsstring :=
  fold_left Set_add xs [].

(** [xs.slice(0, n)] *)
Definition slice0 {A} (n : nat) (xs : list A) : list A := firstn n xs.

(** Lines 105-107. *)
Definition links (doc : Document) : list jsstring :=
  filter nonempty (doc_anchors doc).

(** Line 108. *)
Definition uniqueLinks (doc : Document) : list jsstring :=
  slice0 2000 (Array_from_Set (links doc)).

Record Heading : Type := { tag : jsstring; text : jsstring }.

(** Lines 110-113. *)
Definition headings (doc : Document) : list Heading :=
  List.map (fun h => {| tag := fst h;
                        text := match snd h with
                                | Some t => trim t
                                | None => []
                                end |})
    (doc_headings doc).

Record Image : Type := { src : jsstring; alt : jsstring }.

(** Lines 115-117. *)
Definition images (doc : Document) : list Image :=
  slice0 500
    (List.map (fun i => {| src := fst i; alt := or_str (snd i) [] |})
       (doc_imgs doc)).

(** Line 119. *)
Definition mainText (cleaned : jsstring) (doc : Document) : jsstring :=
  trim (or_str (Some cleaned) (or_str (doc_body_text doc) [])).

(** Line 120. *)
Definition wordCount (main : jsstring) : nat :=
  if nonempty main then List.length (filter nonempty (split_ws main)) else 0.

(** [Math.ceil(n / d)] for an array length [n] and a positive integer [d]:
    the least integer not below the quotient (for such numbers the rounded
    quotient of the two doubles has the ceiling of the exact quotient). *)
Definition Math_ceil_div (n d : nat) : nat := (n + (d - 1)) / d.

(** Line 121. *)
Definition readingTimeMinutes (wc : nat) : nat :=
  Nat.max 1 (Math_ceil_div wc 200).

(** ** The response record (lines 123-153) *)

Record ArticleOut : Type := {
  ao_title : MaybeText;
  ao_excerpt : MaybeText;
  ao_content : MaybeText;
  ao_textContent : jsstring
}.

Record Result : Type := {
  r_url : JsVal;
  r_finalUrl : jsstring;
  r_status : Z;
  r_title : jsstring;
  r_description : jsstring;
  r_canonical : jsstring;
  r_ogImage : jsstring;
  r_jsonLd : list JsVal;
  r_article : option ArticleOut;
  r_links : list jsstring;
  r_headings : list Heading;
  r_images : list Image;
  r_wordCount : nat;
  r_readingTimeMinutes : nat;
  r_scrapedAt : jsstring;
  r_screenshot : option jsstring;
  r_screenshotMime : option jsstring
}.

(** [result.screenshot = ...; result.screenshotMime = ...] (lines 151-152). *)
Definition with_screenshot (r : Result) (b64 mime : jsstring) : Result :=
  {| r_url := r_url r; r_finalUrl := r_finalUrl r; r_status := r_status r;
     r_title := r_title r; r_description := r_description r;
     r_canonical := r_canonical r; r_ogImage := r_ogImage r;
     r_jsonLd := r_jsonLd r; r_article := r_article r; r_links := r_links r;
     r_headings := r_headings r; r_images := r_images r;
     r_wordCount := r_wordCount r;
     r_readingTimeMinutes := r_readingTimeMinutes r;
     r_scrapedAt := r_scrapedAt r;
     r_screenshot := Some b64; r_screenshotMime := Some mime |}.

Inductive Body : Type :=
| ErrorBody (error : JsVal)
| ResultBody (result : Result).

(** [NextResponse.json(body, { status })] *)
Record Response : Type := { status : Z; body : Body }.

Definition NextResponse_json (b : Body) (st : Z) : Response :=
  {| status := st; body := b |}.

(** The JSON object a result serialises to: the keys of the object literal
    in source order, then the two screenshot keys when they were assigned. *)
(** One key of an object under [JSON.stringify]: a key whose value is
    [undefined] is left out, [null] is written as [null]. *)
Definition opt_json (k : string) (v : MaybeText) : list (jsstring * JsVal) :=
  match v with
  | TUndefined => []
  | TNull => [(str k, JNull)]
  | TText s => [(str k, JStr s)]
  end.

Definition Result_json (r : Result) : JsVal :=
  JObj
    ([ (str "url", r_url r);
       (str "finalUrl", JStr (r_finalUrl r));
       (str "status", JNum (r_status r));
       (str "title", JStr (r_title r));
       (str "description", JStr (r_description r));
       (str "canonical", JStr (r_canonical r));
       (str "ogImage", JStr (r_ogImage r));
       (str "jsonLd", JArr (r_jsonLd r));
       (str "article",
         match r_article r with
         | Some a =>
             JObj (opt_json "title" (ao_title a)
                   ++ opt_json "excerpt" (ao_excerpt a)
                   ++ opt_json "content" (ao_content a)
                   ++ [ (str "textContent", JStr (ao_textContent a)) ])
         | None => JNull
         end);
       (str "links", JArr (List.map JStr (r_links r)));
       (str "headings",
         JArr (List.map (fun h => JObj [ (str "tag", JStr (tag h));
                                         (str "text", JStr (text h)) ])
                 (r_headings r)));
       (str "images",
         JArr (List.map (fun i => JObj [ (str "src", JStr (src i));
                                         (str "alt", JStr (alt i)) ])
                 (r_images r)));
       (str "wordCount", JNum (Z.of_nat (r_wordCount r)));
       (str "readingTimeMinutes", JNum (Z.of_nat (r_readingTimeMinutes r)));
       (str "scrapedAt", JStr (r_scrapedAt r)) ]
     ++ match r_screenshot r with
        | Some s => [ (str "screenshot", JStr s) ]
        | None => []
        end
     ++ match r_screenshotMime r with
        | Some s => [ (str "screenshotMime", JStr s) ]
        | None => []
        end).

(** ** The world outside the handler *)

Definition Browser := nat.
Definition Context := nat.
Definition Page := nat.

(** The request: the body text, when there is one. *)
Record Request : Type := { req_body : option jsstring }.

(** Everything the handler obtains from outside during one request: the
    platform builtins and the outcome of each call into Playwright, JSDOM
    and Readability.  [Throws] is a rejected promise or a thrown exception. *)
Record Env : Type := {
  (** [JSON.parse]; [None] is a [SyntaxError] *)
  JSON_parse : jsstring -> option JsVal;
  (** [new URL(s)] does not throw *)
  URL_valid : jsstring -> bool;
  (** [new Date().toISOString()] *)
  Date_toISOString : jsstring;
  (** [buf.toString("base64")] *)
  Buffer_base64 : list N -> jsstring;
  ext_launch : Outcome Browser;
  ext_newContext : Browser -> JsVal -> Outcome unit;
  ext_route : Outcome unit;
  ext_newPage : Outcome unit;
  (** the response's status, or [null] *)
  ext_goto : JsVal -> Z -> Outcome (option Z);
  ext_waitForTimeout : Z -> Outcome unit;
  ext_url : jsstring;
  ext_content : Outcome jsstring;
  ext_screenshot : Outcome (list N);
  ext_page_close : Outcome unit;
  ext_context_close : Outcome unit;
  ext_JSDOM : jsstring -> jsstring -> Outcome Document;
  (** [new Readability(doc).parse()]: the article or [null], and the
      document as the call left it; the parser works on the document it is
      given and changes it in place *)
  ext_Readability : Document -> Outcome (option Article * Document)
}.

(** Process-wide state: the global slot of lines 7-10, holding the settled
    launch promise, and the browsing contexts and pages that are open. *)
Record State : Type := {
  __sagashi_browser : option (Outcome Browser);
  next_id : nat;
  open_contexts : list Context;
  open_pages : list Page
}.

Definition initial_state : State :=
  {| __sagashi_browser := None; next_id := 0;
     open_contexts := []; open_pages := [] |}.

(** Calls that leave the handler, in the order they are made. *)
Inductive Event : Type :=
| EvLaunch (ok : bool)
| EvNewContext (userAgent : JsVal) (ok : bool)
| EvRoute (ok : bool)
| EvNewPage (ok : bool)
| EvGoto (url : JsVal) (timeout : Z) (ok : bool)
| EvWaitForTimeout (ms : Z) (ok : bool)
| EvContent (ok : bool)
| EvJSDOM (ok : bool)
| EvReadability (ok : bool) (found : bool)
| EvScreenshot (ok : bool)
| EvPageClose (page : Page) (ok : bool)
| EvContextClose (context : Context) (ok : bool)
| EvConsoleError (err : JsVal).

(** ** A state, trace and exception monad *)

Definition M (A : Type) : Type := State -> Outcome A * State * list Event.

Definition ret {A} (a : A) : M A := fun st => (Ok a, st, []).

Definition bind {A B} (c : M A) (k : A -> M B) : M B :=
  fun st =>
    match c st with
    | (Ok a, st1, evs1) =>
        match k a st1 with
        | (o, st2, evs2) => (o, st2, evs1 ++ evs2)
        end
    | (Throws e, st1, evs1) => (Throws e, st1, evs1)
    end.

(** [c.catch(() => v)] *)
Definition catch {A} (c : M A) (v : A) : M A :=
  fun st =>
    match c st with
    | (Ok a, st1, evs1) => (Ok a, st1, evs1)
    | (Throws _, st1, evs1) => (Ok v, st1, evs1)
    end.

(** A call whose only effect on the model is its entry in the trace. *)
Definition call {A} (o : Outcome A) (ev : bool -> Event) : M A :=
  fun st => (o, st, [ev (is_ok o)]).

Notation "x <- c ;; k" := (bind c (fun x => k))
  (at level 61, c at next level, right associativity).
Notation "c ;;; k" := (bind c (fun _ => k))
  (at level 61, right associativity).

(** ** The session manager (lines 13-21) *)

(** [getBrowser], awaited: the slot is filled with the launch promise when
    it is empty, and whatever promise the slot holds is awaited. *)
Definition getBrowser (env : Env) : M Browser :=
  fun st =>
    match __sagashi_browser st with
    | None =>
        let promise := ext_launch env in
        (promise,
         {| __sagashi_browser := Some promise; next_id := next_id st;
            open_contexts := open_contexts st; open_pages := open_pages st |},
         [EvLaunch (is_ok promise)])
    | Some promise => (promise, st, [])
    end.

(** ** Calls into the browser that open or close something *)

Definition browser_newContext (env : Env) (browser : Browser)
    (userAgent : JsVal) : M Context :=
  fun st =>
    match ext_newContext env browser userAgent with
    | Ok _ =>
        let id := next_id st in
        (Ok id,
         {| __sagashi_browser := __sagashi_browser st; next_id := S id;
            open_contexts := id :: open_contexts st;
            open_pages := open_pages st |},
         [EvNewContext userAgent true])
    | Throws e => (Throws e, st, [EvNewContext userAgent false])
    end.

Definition context_newPage (env : Env) (context : Context) : M Page :=
  fun st =>
    match ext_newPage env with
    | Ok _ =>
        let id := next_id st in
        (Ok id,
         {| __sagashi_browser := __sagashi_browser st; next_id := S id;
            open_contexts := open_contexts st;
            open_pages := id :: open_pages st |},
         [EvNewPage true])
    | Throws e => (Throws e, st, [EvNewPage false])
    end.

Definition page_close (env : Env) (page : Page) : M unit :=
  fun st =>
    match ext_page_close env with
    | Ok _ =>
        (Ok tt,
         {| __sagashi_browser := __sagashi_browser st; next_id := next_id st;
            open_contexts := open_contexts st;
            open_pages := remove Nat.eq_dec page (open_pages st) |},
         [EvPageClose page true])
    | Throws e => (Throws e, st, [EvPageClose page false])
    end.

Definition context_close (env : Env) (context : Context) : M unit :=
  fun st =>
    match ext_context_close env with
    | Ok _ =>
        (Ok tt,
         {| __sagashi_browser := __sagashi_browser st; next_id := next_id st;
            open_contexts := remove Nat.eq_dec context (open_contexts st);
            open_pages := open_pages st |},
         [EvContextClose context true])
    | Throws e => (Throws e, st, [EvContextClose context false])
    end.

(** ** The handler (lines 25-163) *)

Definition default_userAgent : jsstring :=
  str "Mozilla/5.0 (Windows NT 10.0; Win64; x64) AppleWebKit/537.36 (KHTML, like Gecko) Chrome/120 Safari/537.36".

Definition missing_url : Body :=
  ErrorBody (JStr (str "Missing `url` in request body")).

Definition invalid_url : Body := ErrorBody (JStr (str "Invalid URL")).

(** [req.json().catch(() => ({}))] (line 27). *)
Definition req_json (env : Env) (req : Request) : JsVal :=
  match req_body req with
  | Some t => match JSON_parse env t with
              | Some v => v
              | None => JObj []
              end
  | None => JObj []
  end.

(** [typeof v === "number" ? v : d] *)
Definition number_or (v : JsVal) (d : Z) : Z :=
  match v with JNum n => n | _ => d end.

(** [v !== false] *)
Definition not_false (v : JsVal) : bool :=
  match v with JBool false => false | _ => true end.

(** Lines 123-146. *)
Definition assemble (env : Env) (url : JsVal) (finalUrl : jsstring)
    (status : Z) (doc : Document) (article : option Article) : Result :=
  let cleaned := cleanedTextContent (rawTextContent article) in
  let wc := wordCount (mainText cleaned doc) in
  {| r_url := url;
     r_finalUrl := finalUrl;
     r_status := status;
     r_title := title doc article;
     r_description := description doc;
     r_canonical := canonical doc;
     r_ogImage := ogImage doc;
     r_jsonLd := jsonLd (JSON_parse env) (doc_ld_json doc);
     r_article :=
       match article with
       | Some a => Some {| ao_title := art_title a;
                           ao_excerpt := art_excerpt a;
                           ao_content := art_content a;
                           ao_textContent := cleaned |}
       | None => None
       end;
     r_links := uniqueLinks doc;
     r_headings := headings doc;
     r_images := images doc;
     r_wordCount := wc;
     r_readingTimeMinutes := readingTimeMinutes wc;
     r_scrapedAt := Date_toISOString env;
     r_screenshot := None;
     r_screenshotMime := None |}.

(** The body of the [try] block (lines 27-158). *)
Definition POST_try (env : Env) (req : Request) : M Response :=
  let body := req_json env req in
  let url := field body "url" in
  let opts := js_or (field body "options") (JObj []) in
  if negb (truthy url) then ret (NextResponse_json missing_url 400)
  else if negb (URL_valid env (ToString url))
  then ret (NextResponse_json invalid_url 400)
  else
    browser <- getBrowser env ;;
    context <- browser_newContext env browser
                 (js_or (field opts "userAgent") (JStr default_userAgent)) ;;
    (if not_false (field opts "blockResources")
     then call (ext_route env) EvRoute
     else ret tt) ;;;
    page <- context_newPage env context ;;
    let timeout := number_or (field opts "timeout") 20000 in
    response <- catch (call (ext_goto env url timeout) (EvGoto url timeout))
                  None ;;
    let postWait := number_or (field opts "postWait") 600 in
    call (ext_waitForTimeout env postWait) (EvWaitForTimeout postWait) ;;;
    let finalUrl := ext_url env in
    let status := match response with Some s => s | None => 0%Z end in
    html <- call (ext_content env) EvContent ;;
    doc <- call (ext_JSDOM env html finalUrl) EvJSDOM ;;
    parsed <- call (ext_Readability env doc)
                (fun ok => EvReadability ok
                   (match ext_Readability env doc with
                    | Ok (Some _, _) => true
                    | _ => false
                    end)) ;;
    let article := fst parsed in
    (* [doc] is the object that was handed to the parser: from here on the
       handler queries it as the parser left it *)
    let doc := snd parsed in
    let result := assemble env url finalUrl status doc article in
    result <- (if truthy (field opts "screenshot")
               then buf <- call (ext_screenshot env) EvScreenshot ;;
                    ret (with_screenshot result (Buffer_base64 env buf)
                           (str "image/png"))
               else ret result) ;;
    page_close env page ;;;
    context_close env context ;;;
    ret (NextResponse_json (ResultBody result) 200).

(** [err?.message || "unknown error"] *)
Definition error_message (err : JsVal) : JsVal :=
  js_or (field err "message") (JStr (str "unknown error")).

(** [POST]: the [try] block under its [catch] (lines 159-162). *)
Definition POST (env : Env) (req : Request) (st : State)
    : Response * State * list Event :=
  match POST_try env req st with
  | (Ok response, st', evs) => (response, st', evs)
  | (Throws err, st', evs) =>
      (NextResponse_json (ErrorBody (error_message err)) 500, st',
       evs ++ [EvConsoleError err])
  end.

(** ** Vocabulary of the specification *)

(** A line of normalized text: not empty, without a line break, and without
    white space at either end. *)
Definition good_line (l : jsstring) : bool :=
  nonempty l && negb (existsb (N.eqb LF) l) && jseqb (trim l) l.

(** Normalized text: good lines separated by one blank line each. *)
Definition Normalized (t : jsstring) : Prop :=
  exists ls, forallb good_line ls = true /\ t = join [LF; LF] ls.

(** The number of white-space-delimited non-empty tokens of a text: the
    number of units that are not white space and follow the start of the
    text or a white-space unit. *)
Fixpoint count_tokens_from (after_ws : bool) (s : jsstring) : nat :=
  match s with
  | [] => 0
  | c :: s' =>
      if is_ws c then count_tokens_from true s'
      else (if after_ws then 1 else 0) + count_tokens_from false s'
  end.

Definition count_tokens (s : jsstring) : nat := count_tokens_from true s.



(** A state whose open contexts and pages all carry identifiers that were
    already handed out. *)
Definition well_formed (st : State) : Prop :=
  (forall c, In c (open_contexts st) -> c < next_id st) /\
  (forall p, In p (open_pages st) -> p < next_id st).

(** The request reached navigation: [page.goto] was called. *)
Definition navigated (evs : list Event) : Prop :=
  exists url timeout ok, In (EvGoto url timeout ok) evs.

(** ** Concrete worlds, used to run the handler *)

Module Sample.

Definition quoted (s : string) : jsstring := (34 :: str s ++ [34])%N.

(** [{"url":"https://example.com/article"}] *)
Definition body_plain : jsstring :=
  str "{" ++ quoted "url" ++ str ":" ++ quoted "https://example.com/article"
  ++ str "}".

(** [{"url":"https://example.com/article","options":{"screenshot":true}}] *)
Definition body_shot : jsstring :=
  str "{" ++ quoted "url" ++ str ":" ++ quoted "https://example.com/article"
  ++ str "," ++ quoted "options" ++ str ":{" ++ quoted "screenshot"
  ++ str ":true}}".

(** [{"url":"example"}] *)
Definition body_bad_url : jsstring :=
  str "{" ++ quoted "url" ++ str ":" ++ quoted "example" ++ str "}".

Definition the_url : JsVal := JStr (str "https://example.com/article").

(** A fragment of [JSON.parse]: the texts above and [null]; any other
    text, the empty one included, is a syntax error. *)
Definition parse (t : jsstring) : option JsVal :=
  if jseqb t body_plain then Some (JObj [(str "url", the_url)])
  else if jseqb t body_shot
  then Some (JObj [(str "url", the_url);
                   (str "options", JObj [(str "screenshot", JBool true)])])
  else if jseqb t body_bad_url
  then Some (JObj [(str "url", JStr (str "example"))])
  else if jseqb t (str "null") then Some JNull
  else None.

(** A fragment of the URL parser: only [http...] is accepted. *)
Definition url_valid (s : jsstring) : bool :=
  match s with
  | 104 :: 116 :: 116 :: 112 :: _ => true
  | _ => false
  end%N.

Definition document : Document :=
  {| doc_title := Some (str " Test ");
     doc_meta_name := fun _ => None;
     doc_meta_property := fun _ => None;
     doc_canonical := None;
     doc_ld_json := [Some (str "null"); Some (str "{oops"); Some []; None];
     doc_anchors := [str "https://example.com/a"; str "https://example.com/b";
                     str "https://example.com/a"];
     doc_headings := [(str "H1", Some (str " Heading "))];
     doc_imgs := [(str "https://example.com/a.png", Some (str "pic"))];
     doc_body_text := Some (str " Test Heading one two three ") |}.

Definition article : Article :=
  {| art_title := TText (str "Test");
     art_excerpt := TText (str "one two");
     art_content := TText (str "<p>one two</p><p>three</p>");
     art_textContent := TText ([32; 111; 110; 101; 32; 116; 119; 111; 9; 10;
                               32; 10; 10; 116; 104; 114; 101; 101; 32]%N) |}.

(** The document as the parser leaves it in these worlds: every script is
    removed, and so is every image without a source. *)
Definition left_by_parse (doc : Document) : Document :=
  {| doc_title := doc_title doc;
     doc_meta_name := doc_meta_name doc;
     doc_meta_property := doc_meta_property doc;
     doc_canonical := doc_canonical doc;
     doc_ld_json := [];
     doc_anchors := doc_anchors doc;
     doc_headings := doc_headings doc;
     doc_imgs := filter (fun i => nonempty (fst i)) (doc_imgs doc);
     doc_body_text := doc_body_text doc |}.

Definition failure (message : string) : JsVal :=
  JObj [(str "message", JStr (str message))].

Definition env_with (launch : Outcome Browser)
    (goto : Outcome (option Z)) (readability : Outcome (option Article))
    (screenshot : Outcome (list N)) : Env :=
  {| JSON_parse := parse;
     URL_valid := url_valid;
     Date_toISOString := str "2025-01-01T00:00:00.000Z";
     Buffer_base64 := fun _ => str "iVBORw0KGgo=";
     ext_launch := launch;
     ext_newContext := fun _ _ => Ok tt;
     ext_route := Ok tt;
     ext_newPage := Ok tt;
     ext_goto := fun _ _ => goto;
     ext_waitForTimeout := fun _ => Ok tt;
     ext_url := str "https://example.com/article";
     ext_content := Ok (str "<html></html>");
     ext_screenshot := screenshot;
     ext_page_close := Ok tt;
     ext_context_close := Ok tt;
     ext_JSDOM := fun _ _ => Ok document;
     ext_Readability :=
       fun doc => match readability with
                  | Ok a => Ok (a, left_by_parse doc)
                  | Throws e => Throws e
                  end |}.

(** Everything succeeds. *)
Definition env : Env :=
  env_with (Ok 7) (Ok (Some 200%Z)) (Ok (Some article)) (Ok [137; 80]%N).

(** The heuristic finds no article. *)
Definition env_no_article : Env :=
  env_with (Ok 7) (Ok (Some 200%Z)) (Ok None) (Ok [137; 80]%N).

(** Navigation times out. *)
Definition env_timeout : Env :=
  env_with (Ok 7) (Throws (failure "Timeout 20000ms exceeded"))
    (Ok None) (Ok [137; 80]%N).

(** Screenshot capture fails. *)
Definition env_shot_fails : Env :=
  env_with (Ok 7) (Ok (Some 200%Z)) (Ok (Some article))
    (Throws (failure "Protocol error")).

(** The browser does not launch. *)
Definition env_launch_fails : Env :=
  env_with (Throws (failure "Executable not found")) (Ok (Some 200%Z))
    (Ok (Some article)) (Ok [137; 80]%N).

Definition request (t : jsstring) : Request := {| req_body := Some t |}.

End Sample.

(** The keys every result carries with a value: all but [article], which
    may be null, and the screenshot pair, which may be missing. *)
Definition required_fields : list string :=
  ["url"; "finalUrl"; "status"; "title"; "description"; "canonical";
   "ogImage"; "jsonLd"; "links"; "headings"; "images"; "wordCount";
   "readingTimeMinutes"; "scrapedAt"]%string.

Definition nullish (v : JsVal) : bool :=
  match v with JUndefined | JNull => true | _ => false end.

(** Symbolic execution of the handler inside a hypothesis: unfold the monad
    and case on every outcome the run depends on, innermost first. *)
Ltac exec_in H :=
  cbv [POST POST_try bind ret catch call getBrowser browser_newContext
       context_newPage page_close context_close
       __sagashi_browser next_id open_contexts open_pages] in H;
  repeat match type of H with
         | context [match ?x with _ => _ end] =>
             lazymatch x with
             | context [match _ with _ => _ end] => fail
             | _ => destruct x eqn:?; try discriminate H
             end
         end.

Ltac in_list := simpl; repeat first [left; reflexivity | right].

(** ** Serving several requests *)

(** The route answering requests one after the other, each in the state the
    one before it left, each in its own world; the traces are concatenated. *)
Fixpoint serve (requests : list (Env * Request)) (st : State)
    : list Response * State * list Event :=
  match requests with
  | [] => ([], st, [])
  | (env, req) :: rest =>
      match POST env req st with
      | (resp, st1, evs1) =>
          match serve rest st1 with
          | (resps, st2, evs2) => (resp :: resps, st2, evs1 ++ evs2)
          end
      end
  end.

Definition is_launch (e : Event) : bool :=
  match e with EvLaunch _ => true | _ => false end.

(** The number of browser launches in a trace. *)
Definition launches (evs : list Event) : nat :=
  List.length (filter is_launch evs).

(** A text made of white space only. *)
Definition all_ws (s : jsstring) : bool := forallb is_ws s.

(** The options object of line 29. *)
Definition options_of (env : Env) (req : Request) : JsVal :=
  js_or (field (req_json env req) "options") (JObj []).

(** 1 when the session slot holds a launch promise, 0 when it is empty. *)
Definition slot_filled (st : State) : nat :=
  match __sagashi_browser st with Some _ => 1 | None => 0 end.

Definition is_close (e : Event) : bool :=
  match e with EvPageClose _ _ | EvContextClose _ _ => true | _ => false end.

(** ** What the parser does to the document *)

(** [Readability.parse] removes every script element from the document it
    is given; the property is the library's, the handler relies on none. *)
Definition Readability_removes_scripts (env : Env) : Prop :=
  forall doc article doc',
    ext_Readability env doc = Ok (article, doc') -> doc_ld_json doc' = [].

(** The world of a page without text, whose body holds one image without a
    source: [<title>T</title><body><img alt="pic"></body>].  The parser
    finds no article in it and removes the image. *)
Module Bare.

Definition document : Document :=
  {| doc_title := Some (str "T");
     doc_meta_name := fun _ => None;
     doc_meta_property := fun _ => None;
     doc_canonical := None;
     doc_ld_json := [];
     doc_anchors := [];
     doc_headings := [];
     doc_imgs := [([], Some (str "pic"))];
     doc_body_text := Some [] |}.

Definition env : Env :=
  {| JSON_parse := Sample.parse;
     URL_valid := Sample.url_valid;
     Date_toISOString := str "2025-01-01T00:00:00.000Z";
     Buffer_base64 := fun _ => str "iVBORw0KGgo=";
     ext_launch := Ok 7;
     ext_newContext := fun _ _ => Ok tt;
     ext_route := Ok tt;
     ext_newPage := Ok tt;
     ext_goto := fun _ _ => Ok (Some 200%Z);
     ext_waitForTimeout := fun _ => Ok tt;
     ext_url := str "https://example.com/article";
     ext_content := Ok (str "<html></html>");
     ext_screenshot := Ok [137; 80]%N;
     ext_page_close := Ok tt;
     ext_context_close := Ok tt;
     ext_JSDOM := fun _ _ => Ok document;
     ext_Readability := fun doc => Ok (None, Sample.left_by_parse doc) |}.

End Bare.

(** ** Results of the concrete worlds *)

Module Runs.

(** The result of [Sample.env_timeout] for the plain request. *)
Definition timeout_result : Result :=
  assemble Sample.env_timeout Sample.the_url
    (ext_url Sample.env_timeout) 0 (Sample.left_by_parse Sample.document) None.

(** The result of [Sample.env] for the plain request. *)
Definition plain_result : Result :=
  assemble Sample.env Sample.the_url (ext_url Sample.env) 200
    (Sample.left_by_parse Sample.document) (Some Sample.article).

(** The result of [Sample.env] for the request that asks for a screenshot. *)
Definition shot_result : Result :=
  with_screenshot plain_result (str "iVBORw0KGgo=") (str "image/png").

(** The state a request leaves when it was answered 200 from the initial
    state: the slot filled, two identifiers used, nothing open. *)
Definition settled : State :=
  {| __sagashi_browser := Some (Ok 7); next_id := 2;
     open_contexts := []; open_pages := [] |}.

End Runs.

(** * Properties *)

(** ** Running the handler *)

Example clean_ex :
  cleanedTextContent ([32; 97; 32; 98; 9; 10; 32; 10; 10; 99; 32]%N)
  = [97; 32; 98; 10; 10; 99]%N.
Proof. reflexivity. Qed.

(** ** Strings *)

Lemma jseqb_eq (a b : jsstring) : jseqb a b = true <-> a = b.
Proof.
  unfold jseqb. destruct (list_eq_dec N.eq_dec a b); split; intros; congruence.
Qed.

Lemma jseqb_refl (a : jsstring) : jseqb a a = true.
Proof. now apply jseqb_eq. Qed.

Lemma nonempty_true (s : jsstring) : nonempty s = true <-> s <> [].
Proof. destruct s; simpl; split; intros; congruence. Qed.

Lemma trimStart_ws_prefix (s : jsstring) :
  exists w, s = w ++ trimStart s /\ forallb is_ws w = true.
Proof.
  induction s as [|c s [w [E W]]]; simpl.
  - now exists [].
  - destruct (is_ws c) eqn:C.
    + exists (c :: w). simpl. rewrite C, W. now rewrite <- E.
    + now exists [].
Qed.

Lemma trimStart_fixed (s : jsstring) : trimStart (trimStart s) = trimStart s.
Proof.
  induction s as [|c s IH]; simpl; auto.
  destruct (is_ws c) eqn:C; auto. simpl. now rewrite C.
Qed.

Lemma trimStart_snoc (u : jsstring) (c : N) :
  is_ws c = false -> trimStart (u ++ [c]) = trimStart u ++ [c].
Proof.
  intros C. induction u as [|d u IH]; simpl.
  - now rewrite C.
  - destruct (is_ws d); auto.
Qed.

Lemma trimEnd_fixed (s : jsstring) : trimEnd (trimEnd s) = trimEnd s.
Proof. unfold trimEnd. now rewrite rev_involutive, trimStart_fixed. Qed.

Lemma trimEnd_keeps_start (t : jsstring) :
  trimStart t = t -> trimStart (trimEnd t) = trimEnd t.
Proof.
  destruct t as [|c t]; auto. simpl.
  destruct (is_ws c) eqn:C.
  - intros E. exfalso.
    destruct (trimStart_ws_prefix t) as [w [E1 _]].
    assert (L : List.length (trimStart t) = S (List.length t)) by now rewrite E.
    rewrite E1 in L at 2. rewrite length_app in L. lia.
  - intros _. unfold trimEnd. simpl rev.
    rewrite trimStart_snoc, rev_unit by assumption. simpl. now rewrite C.
Qed.

Lemma trim_fixed (s : jsstring) : trim (trim s) = trim s.
Proof.
  unfold trim. rewrite trimEnd_keeps_start by apply trimStart_fixed.
  apply trimEnd_fixed.
Qed.

Lemma trimStart_incl (s : jsstring) (x : N) : In x (trimStart s) -> In x s.
Proof.
  destruct (trimStart_ws_prefix s) as [w [E _]]. intros H.
  rewrite E. apply in_or_app. now right.
Qed.

Lemma trim_incl (s : jsstring) (x : N) : In x (trim s) -> In x s.
Proof.
  unfold trim, trimEnd. intros H. apply trimStart_incl.
  apply in_rev in H. apply trimStart_incl in H. now apply in_rev.
Qed.

Lemma split_on_not_nil (sep : N) (s : jsstring) : split_on sep s <> [].
Proof.
  destruct s as [|c s]; simpl; try discriminate.
  destruct (c =? sep)%N; try discriminate.
  destruct (split_on sep s); discriminate.
Qed.

Lemma split_on_no_sep (sep : N) (l : jsstring) :
  ~ In sep l -> split_on sep l = [l].
Proof.
  induction l as [|c l IH]; simpl; auto. intros H.
  destruct (N.eqb_spec c sep) as [->|_]; [tauto|].
  rewrite IH by tauto. reflexivity.
Qed.

Lemma split_on_app (sep : N) (l rest : jsstring) :
  ~ In sep l -> split_on sep (l ++ sep :: rest) = l :: split_on sep rest.
Proof.
  induction l as [|c l IH]; simpl; intros H.
  - now rewrite N.eqb_refl.
  - destruct (N.eqb_spec c sep) as [->|_]; [tauto|].
    rewrite IH by tauto. reflexivity.
Qed.

Lemma split_on_pieces (sep : N) (s p : jsstring) :
  In p (split_on sep s) -> ~ In sep p.
Proof.
  revert p. induction s as [|c s IH]; simpl; intros p H.
  - destruct H as [<-|[]]. auto.
  - destruct (N.eqb_spec c sep) as [->|N].
    + destruct H as [<-|H]; auto.
    + destruct (split_on sep s) as [|l ls] eqn:E.
      * destruct H as [<-|[]]. simpl. intuition.
      * destruct H as [<-|H].
        -- simpl. intros [?|?]; [congruence|]. apply (IH l); simpl; auto.
        -- apply IH. simpl. auto.
Qed.

Lemma good_line_spec (l : jsstring) :
  good_line l = true <-> l <> [] /\ ~ In LF l /\ trim l = l.
Proof.
  unfold good_line. rewrite !andb_true_iff, negb_true_iff, jseqb_eq, nonempty_true.
  assert (X : existsb (N.eqb LF) l = false <-> ~ In LF l).
  { split.
    - intros E H. assert (existsb (N.eqb LF) l = true); [|congruence].
      apply existsb_exists. exists LF. split; auto using N.eqb_refl.
    - intros H. destruct (existsb (N.eqb LF) l) eqn:E; auto.
      apply existsb_exists in E. destruct E as [x [I E]].
      apply N.eqb_eq in E. subst. tauto. }
  tauto.
Qed.

(** Splitting, trimming and filtering a join of good lines gives the lines
    back. *)
Lemma lines_of_join (ls : list jsstring) :
  forallb good_line ls = true ->
  filter (fun line => nonempty line)
    (List.map (fun line => trim line) (split_on LF (join [LF; LF] ls))) = ls.
Proof.
  induction ls as [|l ls IH]; [reflexivity|].
  simpl forallb. rewrite andb_true_iff. intros [G Gs].
  apply good_line_spec in G. destruct G as [NE [NL T]].
  destruct ls as [|l2 rest].
  - simpl join. rewrite split_on_no_sep by assumption. simpl.
    rewrite T. now apply nonempty_true in NE as ->.
  - change (join [LF; LF] (l :: l2 :: rest))
      with (l ++ LF :: LF :: join [LF; LF] (l2 :: rest)).
    rewrite split_on_app by assumption.
    change (split_on LF (LF :: join [LF; LF] (l2 :: rest)))
      with ([] :: split_on LF (join [LF; LF] (l2 :: rest))).
    simpl map. simpl filter. rewrite T.
    apply nonempty_true in NE as ->.
    change (trim []) with (@nil N). simpl. f_equal. now apply IH.
Qed.

(** The lines the handler keeps are good lines. *)
Lemma kept_lines_good (s : jsstring) :
  forallb good_line
    (filter (fun line => nonempty line)
       (List.map (fun line => trim line) (split_on LF s))) = true.
Proof.
  apply forallb_forall. intros l H. apply filter_In in H. destruct H as [H NE].
  apply in_map_iff in H. destruct H as [p [<- P]].
  apply good_line_spec. split; [now apply nonempty_true|]. split.
  - intros I. apply trim_incl in I. now apply split_on_pieces in P.
  - apply trim_fixed.
Qed.

Lemma cleaned_Normalized (s : jsstring) : Normalized (cleanedTextContent s).
Proof. eexists. split; [apply kept_lines_good|reflexivity]. Qed.

Lemma cleaned_join (ls : list jsstring) :
  forallb good_line ls = true ->
  cleanedTextContent (join [LF; LF] ls) = join [LF; LF] ls.
Proof. intros G. unfold cleanedTextContent. now rewrite lines_of_join. Qed.

(** Normalizing twice is normalizing once, for every text. *)
Lemma cleanedTextContent_idempotent (s : jsstring) :
  cleanedTextContent (cleanedTextContent s) = cleanedTextContent s.
Proof.
  unfold cleanedTextContent at 2 3. apply cleaned_join, kept_lines_good.
Qed.

(** C6.  Text normalization (split into lines, trim each line, drop the
    empty lines, join with a blank line) returns every text that is already
    normalized (good lines, none empty, none with white space at an end,
    separated by blank lines) unchanged. *)
Theorem normalization_fixes_normalized (t : jsstring) :
  Normalized t -> cleanedTextContent t = t.
Proof. intros [ls [G ->]]. now apply cleaned_join. Qed.

Lemma normalization_fixes_normalized_witness :
  Normalized [97; 32; 98; 10; 10; 99]%N /\
  cleanedTextContent [97; 32; 98; 10; 10; 99]%N = [97; 32; 98; 10; 10; 99]%N.
Proof.
  assert (H : Normalized [97; 32; 98; 10; 10; 99]%N).
  { exists [[97; 32; 98]; [99]]%N. split; reflexivity. }
  split; [exact H | exact (normalization_fixes_normalized H)].
Defined.

(** ** Words *)




Lemma count_tokens_from_ws (b : bool) (w : jsstring) :
  forallb is_ws w = true -> count_tokens_from b w = 0.
Proof.
  revert b. induction w as [|c w IH]; intros b; simpl; auto.
  rewrite andb_true_iff. intros [C W]. rewrite C. now apply IH.
Qed.

Lemma count_tokens_from_app_ws (b : bool) (s w : jsstring) :
  forallb is_ws w = true ->
  count_tokens_from b (s ++ w) = count_tokens_from b s.
Proof.
  intros W. revert b. induction s as [|c s IH]; intros b; simpl.
  - now apply count_tokens_from_ws.
  - destruct (is_ws c); now rewrite IH.
Qed.

Lemma count_tokens_trimStart (s : jsstring) :
  count_tokens (trimStart s) = count_tokens s.
Proof.
  unfold count_tokens. induction s as [|c s IH]; simpl; auto.
  destruct (is_ws c) eqn:C; auto. simpl. now rewrite C.
Qed.

Lemma count_tokens_trimEnd (s : jsstring) :
  count_tokens (trimEnd s) = count_tokens s.
Proof.
  unfold trimEnd. destruct (trimStart_ws_prefix (rev s)) as [w [E W]].
  assert (S : s = rev (trimStart (rev s)) ++ rev w).
  { rewrite <- rev_app_distr, <- E. now rewrite rev_involutive. }
  rewrite S at 2. unfold count_tokens. rewrite count_tokens_from_app_ws; auto.
  rewrite forallb_forall in *. intros x I. apply W. now apply in_rev.
Qed.

Lemma count_tokens_trim (s : jsstring) : count_tokens (trim s) = count_tokens s.
Proof. unfold trim. now rewrite count_tokens_trimEnd, count_tokens_trimStart. Qed.

Example readingTimeMinutes_ex :
  readingTimeMinutes 0 = 1 /\ readingTimeMinutes 200 = 1 /\
  readingTimeMinutes 201 = 2 /\ readingTimeMinutes 210 = 2.
Proof. repeat split. Qed.

Lemma Math_ceil_div_200 (n : nat) :
  n <= 200 * Math_ceil_div n 200 /\ 200 * Math_ceil_div n 200 < n + 200.
Proof.
  unfold Math_ceil_div. change (200 - 1) with 199.
  pose proof (Nat.div_mod_eq (n + 199) 200) as E.
  pose proof (Nat.mod_upper_bound (n + 199) 200) as U.
  lia.
Qed.


(** ** Links and images *)

Lemma existsb_jseqb (x : jsstring) (l : list jsstring) :
  existsb (jseqb x) l = true <-> In x l.
Proof.
  rewrite existsb_exists. split.
  - intros [y [I E]]. apply jseqb_eq in E. now subst.
  - intros I. exists x. split; auto using jseqb_refl.
Qed.

Lemma Set_add_cases (members : list jsstring) (x : jsstring) :
  (In x members /\ Set_add members x = members) \/
  (~ In x members /\ Set_add members x = members ++ [x]).
Proof.
  unfold Set_add. destruct (existsb (jseqb x) members) eqn:E.
  - left. split; auto. now apply existsb_jseqb.
  - right. split; auto. intros I. apply existsb_jseqb in I. congruence.
Qed.


Lemma Set_fold_NoDup (xs members : list jsstring) :
  NoDup members -> NoDup (fold_left Set_add xs members).
Proof.
  revert members. induction xs as [|x xs IH]; intros members ND; simpl; auto.
  apply IH. destruct (Set_add_cases members x) as [[_ ->]|[NI ->]]; auto.
  apply NoDup_app; auto.
  - repeat constructor. simpl. tauto.
  - intros y I [<-|[]]. tauto.
Qed.

Lemma Set_fold_In (xs members : list jsstring) (y : jsstring) :
  In y (fold_left Set_add xs members) <-> In y members \/ In y xs.
Proof.
  revert members. induction xs as [|x xs IH]; intros members; simpl.
  - tauto.
  - rewrite IH. destruct (Set_add_cases members x) as [[I ->]|[_ ->]].
    + intuition (subst; auto).
    + rewrite in_app_iff. simpl. tauto.
Qed.







Lemma NoDup_firstn {A} (n : nat) (l : list A) : NoDup l -> NoDup (firstn n l).
Proof.
  intros ND. rewrite <- (firstn_skipn n l) in ND.
  now apply NoDup_app_remove_r in ND.
Qed.


Lemma In_firstn {A} (n : nat) (x : A) (l : list A) : In x (firstn n l) -> In x l.
Proof.
  intros I. rewrite <- (firstn_skipn n l). apply in_or_app. now left.
Qed.


(** ** Structured data *)

Lemma jsonLd_app (P : jsstring -> option JsVal) (a b : list (option jsstring)) :
  jsonLd P (a ++ b) = jsonLd P a ++ jsonLd P b.
Proof. unfold jsonLd. now rewrite map_app, filter_app. Qed.

Lemma jsonLd_cons (P : jsstring -> option JsVal) (s : option jsstring)
    (rest : list (option jsstring)) :
  jsonLd P (s :: rest)
  = (if truthy (parse_or_raw P s) then [parse_or_raw P s] else [])
    ++ jsonLd P rest.
Proof. unfold jsonLd. simpl. now destruct (truthy (parse_or_raw P s)). Qed.

(** Lines 96-102 on the script bodies they are given, provided the empty
    text is not JSON: a script whose non-empty body does not parse
    contributes its raw text at its place in the array; a script whose entry
    is null or the empty string after the parse step contributes nothing,
    and so does an empty script tag; the array holds neither null nor the
    empty string. *)
Theorem jsonLd_keeps_raw_text_drops_empty (env : Env)
    (before after : list (option jsstring)) :
  JSON_parse env [] = None ->
  (forall t, JSON_parse env t = None -> t <> [] ->
     jsonLd (JSON_parse env) (before ++ Some t :: after)
     = jsonLd (JSON_parse env) before ++ JStr t :: jsonLd (JSON_parse env) after) /\
  (forall s, parse_or_raw (JSON_parse env) s = JNull \/
             parse_or_raw (JSON_parse env) s = JStr [] ->
     jsonLd (JSON_parse env) (before ++ s :: after)
     = jsonLd (JSON_parse env) before ++ jsonLd (JSON_parse env) after) /\
  (forall s, s = None \/ s = Some [] ->
     jsonLd (JSON_parse env) (before ++ s :: after)
     = jsonLd (JSON_parse env) before ++ jsonLd (JSON_parse env) after) /\
  (forall v, In v (jsonLd (JSON_parse env) (before ++ after)) ->
     v <> JNull /\ v <> JStr []).
Proof.
  intros Empty. repeat split.
  - intros t F NE. rewrite jsonLd_app, jsonLd_cons. unfold parse_or_raw.
    destruct t as [|c t]; [congruence|]. cbn [or_str]. now rewrite F.
  - intros s [E|E]; rewrite jsonLd_app, jsonLd_cons, E; reflexivity.
  - intros s [->| ->]; rewrite jsonLd_app, jsonLd_cons; unfold parse_or_raw;
      cbn [or_str]; rewrite Empty; reflexivity.
  - apply filter_In in H. destruct H as [_ T]. intros ->. discriminate.
  - apply filter_In in H. destruct H as [_ T]. intros ->. discriminate.
Qed.

Lemma jsonLd_keeps_raw_text_drops_empty_witness :
  JSON_parse Sample.env [] = None /\
  jsonLd (JSON_parse Sample.env)
    ([Some (str "null")] ++ Some (str "{oops") :: [Some []; None])
  = jsonLd (JSON_parse Sample.env) [Some (str "null")]
    ++ JStr (str "{oops") :: jsonLd (JSON_parse Sample.env) [Some []; None].
Proof.
  assert (E : JSON_parse Sample.env [] = None) by reflexivity.
  split; [exact E|].
  apply (proj1 (jsonLd_keeps_raw_text_drops_empty Sample.env
                  [Some (str "null")] [Some []; None] E));
    [reflexivity | discriminate].
Defined.

(** C7 fails on the code.  The rendered page holds an ld+json script whose
    body is not JSON, and lines 96-102 would keep its raw text; but the
    document they query is the one the parser was given at lines 73-74 and
    has left without any script, so the array of the result is empty. *)
Theorem page_scripts_never_reach_jsonLd :
  let '(resp, _, evs) :=
    POST Sample.env (Sample.request Sample.body_plain) initial_state in
  ext_JSDOM Sample.env (str "<html></html>") (ext_url Sample.env)
  = Ok Sample.document /\
  In (Some (str "{oops")) (doc_ld_json Sample.document) /\
  JSON_parse Sample.env (str "{oops") = None /\
  jsonLd (JSON_parse Sample.env) (doc_ld_json Sample.document)
  = [JStr (str "{oops")] /\
  In (EvReadability true true) evs /\
  status resp = 200%Z /\
  exists r, body resp = ResultBody r /\ r_jsonLd r = [].
Proof.
  vm_compute. repeat split.
  - in_list.
  - in_list.
  - eexists. split; reflexivity.
Qed.

Example jsonLd_ex :
  jsonLd (JSON_parse Sample.env) (doc_ld_json Sample.document)
  = [JStr (str "{oops")].
Proof. reflexivity. Qed.

(** [filter(Boolean)] drops [null], the empty string, [false] and [0]; an
    empty object or array that was parsed is truthy and stays. *)
Example jsonLd_falsy_dropped :
  jsonLd (fun t => match t with
                   | [48] => Some (JNum 0)
                   | [102] => Some (JBool false)
                   | [123; 125] => Some (JObj [])
                   | [91; 93] => Some (JArr [])
                   | _ => None
                   end%N)
    [Some [48]; Some [123; 125]; Some [102]; Some [91; 93]]%N
  = [JObj []; JArr []].
Proof. reflexivity. Qed.

(** ** Validation *)

(** The two guards of lines 31-36, with their messages: a falsy [url]
    (missing, [null], the empty string, [0], [false]) and a [url] the URL
    parser rejects. *)
Lemma rejected_before_session (env : Env) (req : Request) (st : State) :
  let url := field (req_json env req) "url" in
  (truthy url = false ->
   POST env req st = (NextResponse_json missing_url 400, st, [])) /\
  (truthy url = true -> URL_valid env (ToString url) = false ->
   POST env req st = (NextResponse_json invalid_url 400, st, [])).
Proof.
  cbv zeta. unfold POST, POST_try. split.
  - intros ->. reflexivity.
  - intros -> ->. reflexivity.
Qed.

(** C5.  A request whose [url] is missing, is the empty string, or does not
    parse as a URL is answered with status 400, and answering it makes no
    call into the browser and leaves the shared state as it was. *)
Theorem invalid_url_never_reaches_browser (env : Env) (req : Request)
    (st : State) :
  let url := field (req_json env req) "url" in
  url = JUndefined \/ url = JStr [] \/ URL_valid env (ToString url) = false ->
  exists error,
    POST env req st = (NextResponse_json (ErrorBody error) 400, st, []).
Proof.
  cbv zeta. intros H.
  destruct (rejected_before_session env req st) as [F V]. cbv zeta in F, V.
  destruct (truthy (field (req_json env req) "url")) eqn:T.
  - destruct H as [H|[H|H]]; try (rewrite H in T; discriminate).
    eexists. now apply V.
  - eexists. now apply F.
Qed.

Lemma invalid_url_never_reaches_browser_witness :
  exists error,
    POST Sample.env (Sample.request Sample.body_bad_url) initial_state
    = (NextResponse_json (ErrorBody error) 400, initial_state, []).
Proof.
  apply (invalid_url_never_reaches_browser Sample.env
           (Sample.request Sample.body_bad_url) initial_state).
  right. right. reflexivity.
Defined.

(** C10.  A request without a body, or with a body that is not JSON, is
    handled as the empty object: the answer is the 400 missing-url error,
    no call into the browser is made and the shared state is as it was. *)
Theorem unreadable_body_is_missing_url (env : Env) (req : Request)
    (st : State) :
  req_body req = None \/
  (exists t, req_body req = Some t /\ JSON_parse env t = None) ->
  POST env req st = (NextResponse_json missing_url 400, st, []).
Proof.
  intros H.
  assert (E : req_json env req = JObj []).
  { unfold req_json. destruct H as [->|[t [-> ->]]]; reflexivity. }
  unfold POST, POST_try. rewrite E. reflexivity.
Qed.

Lemma unreadable_body_is_missing_url_witness :
  POST Sample.env (Sample.request (str "url=example")) initial_state
  = (NextResponse_json missing_url 400, initial_state, []).
Proof.
  apply (unreadable_body_is_missing_url Sample.env
           (Sample.request (str "url=example")) initial_state).
  right. exists (str "url=example"). split; reflexivity.
Defined.

(** ** The result record *)

Lemma required_fields_present (r : Result) :
  truthy (r_url r) = true ->
  forallb (fun k => negb (nullish (field (Result_json r) k))) required_fields
  = true.
Proof.
  destruct r as [u]. cbn [r_url]. intros T.
  destruct u; try discriminate T; vm_compute; reflexivity.
Qed.

(** Every result the handler returns is the record of lines 123-146 for the
    document as the parser left it, with the screenshot pair added when the
    option was set. *)
Lemma POST_result_assembled (env : Env) (req : Request) (st : State)
    (r : Result) (st' : State) (evs : list Event) :
  POST env req st = (NextResponse_json (ResultBody r) 200, st', evs) ->
  exists html doc article doc' status,
    ext_content env = Ok html /\
    ext_JSDOM env html (ext_url env) = Ok doc /\
    ext_Readability env doc = Ok (article, doc') /\
    let a := assemble env (field (req_json env req) "url") (ext_url env)
               status doc' article in
    r = a \/
    exists buf, ext_screenshot env = Ok buf /\
                r = with_screenshot a (Buffer_base64 env buf) (str "image/png").
Proof.
  intros H. destruct st as [slot nid ctxs pages].
  exec_in H; injection H as <- <- <-.
  all: do 5 eexists; (split; [reflexivity|]); (split; [eassumption|]);
    (split; [eassumption|]); cbv zeta;
    first [left; reflexivity | right; eexists; split; reflexivity].
Qed.

Lemma or_str_nil (a : option jsstring) :
  or_str a [] = match a with Some t => t | None => [] end.
Proof. destruct a as [[|c t]|]; reflexivity. Qed.

(** The record of lines 123-146 when there is no article, field by field,
    in terms of what the queries of lines 90-117 return. *)
Lemma assemble_without_article (env : Env) (url : JsVal)
    (finalUrl : jsstring) (status : Z) (doc : Document) :
  let r := assemble env url finalUrl status doc None in
  r_article r = None /\
  field (Result_json r) "article" = JNull /\
  r_title r = trim (match doc_title doc with Some t => t | None => [] end) /\
  r_headings r
  = List.map (fun h => {| tag := fst h;
                          text := match snd h with
                                  | Some t => trim t
                                  | None => []
                                  end |}) (doc_headings doc) /\
  r_images r
  = firstn 500
      (List.map (fun i => {| src := fst i;
                             alt := match snd i with
                                    | Some a => a
                                    | None => []
                                    end |}) (doc_imgs doc)) /\
  NoDup (r_links r) /\
  (forall x, In x (r_links r) -> x <> [] /\ In x (doc_anchors doc)) /\
  (forall x, In x (doc_anchors doc) -> x <> [] ->
             In x (r_links r) \/ List.length (r_links r) = 2000).
Proof.
  cbv zeta. unfold assemble.
  cbn [r_article r_title r_headings r_images r_links].
  split; [reflexivity|]. split; [vm_compute; reflexivity|].
  split; [unfold title; cbn [text_or]; now rewrite or_str_nil|].
  split; [reflexivity|].
  split.
  { unfold images, slice0. f_equal. apply map_ext. intros [sr al].
    cbn [fst snd]. now rewrite or_str_nil. }
  unfold uniqueLinks, slice0, Array_from_Set, links.
  split; [apply NoDup_firstn, Set_fold_NoDup; constructor|]. split.
  - intros x I. apply In_firstn, Set_fold_In in I. destruct I as [[]|I].
    apply filter_In in I. destruct I as [I NE].
    split; auto. now apply nonempty_true.
  - intros x I NE.
    set (L := fold_left Set_add (filter nonempty (doc_anchors doc)) []).
    destruct (Nat.le_gt_cases (List.length L) 2000) as [Le|Gt].
    + left. rewrite firstn_all2 by assumption. apply Set_fold_In. right.
      apply filter_In. split; auto. now apply nonempty_true.
    + right. apply firstn_length_le. lia.
Qed.

(** In every run in which the parser returns no article and no later call
    (screenshot, closing the page, closing the context) throws, the handler
    answers 200 with a complete result: [article] is null; the title is the
    trimmed text of the title element; every heading, the first 500 images
    and every distinct non-empty href (up to 2000) are reported, all as the
    document holds them once the parser is done with it; and none of the
    other fields is null or missing. *)
Theorem null_article_result_complete (env : Env) (req : Request)
    (st : State) (resp : Response) (st' : State) (evs : list Event) :
  POST env req st = (resp, st', evs) ->
  In (EvReadability true false) evs ->
  ~ In (EvScreenshot false) evs ->
  (forall p, ~ In (EvPageClose p false) evs) ->
  (forall c, ~ In (EvContextClose c false) evs) ->
  exists r html doc doc',
    resp = NextResponse_json (ResultBody r) 200 /\
    ext_content env = Ok html /\
    ext_JSDOM env html (ext_url env) = Ok doc /\
    ext_Readability env doc = Ok (None, doc') /\
    r_article r = None /\
    field (Result_json r) "article" = JNull /\
    r_title r = trim (match doc_title doc' with Some t => t | None => [] end) /\
    r_headings r
    = List.map (fun h => {| tag := fst h;
                            text := match snd h with
                                    | Some t => trim t
                                    | None => []
                                    end |}) (doc_headings doc') /\
    r_images r
    = firstn 500
        (List.map (fun i => {| src := fst i;
                               alt := match snd i with
                                      | Some a => a
                                      | None => []
                                      end |}) (doc_imgs doc')) /\
    NoDup (r_links r) /\
    (forall x, In x (r_links r) -> x <> [] /\ In x (doc_anchors doc')) /\
    (forall x, In x (doc_anchors doc') -> x <> [] ->
               In x (r_links r) \/ List.length (r_links r) = 2000) /\
    forallb (fun k => negb (nullish (field (Result_json r) k))) required_fields
    = true.
Proof.
  intros H R NS NP NC. destruct st as [slot nid ctxs pages].
  exec_in H; injection H as <- <- <-;
    try solve [exfalso; clear - R; simpl in R; intuition discriminate];
    try solve [exfalso; apply NS; in_list];
    try solve [exfalso; eapply NP; in_list];
    try solve [exfalso; eapply NC; in_list].
  all: cbn [fst snd];
    match goal with
    | |- context [assemble ?e ?u ?f ?s ?d None] =>
        pose proof (assemble_without_article e u f s d) as A; cbv zeta in A;
        destruct A as (A1 & A2 & A3 & A4 & A5 & A6 & A7 & A8)
    end.
  all: do 4 eexists; unfold NextResponse_json;
    (split; [reflexivity|]); (split; [reflexivity|]);
    (split; [eassumption|]); (split; [eassumption|]).
  all: repeat match goal with
         | |- _ /\ _ => split
         end; try assumption; try (destruct A2; vm_compute; reflexivity).
  all: apply required_fields_present; cbn [with_screenshot assemble r_url];
    match goal with
    | E : negb (truthy _) = false |- _ => now apply negb_false_iff in E
    end.
Qed.

Lemma null_article_result_complete_witness :
  let env := Sample.env_no_article in
  let run := POST env (Sample.request Sample.body_plain) initial_state in
  exists r html doc doc',
    fst (fst run) = NextResponse_json (ResultBody r) 200 /\
    ext_content env = Ok html /\
    ext_JSDOM env html (ext_url env) = Ok doc /\
    ext_Readability env doc = Ok (None, doc') /\
    r_article r = None /\
    field (Result_json r) "article" = JNull /\
    r_title r = trim (match doc_title doc' with Some t => t | None => [] end) /\
    r_headings r
    = List.map (fun h => {| tag := fst h;
                            text := match snd h with
                                    | Some t => trim t
                                    | None => []
                                    end |}) (doc_headings doc') /\
    r_images r
    = firstn 500
        (List.map (fun i => {| src := fst i;
                               alt := match snd i with
                                      | Some a => a
                                      | None => []
                                      end |}) (doc_imgs doc')) /\
    NoDup (r_links r) /\
    (forall x, In x (r_links r) -> x <> [] /\ In x (doc_anchors doc')) /\
    (forall x, In x (doc_anchors doc') -> x <> [] ->
               In x (r_links r) \/ List.length (r_links r) = 2000) /\
    forallb (fun k => negb (nullish (field (Result_json r) k))) required_fields
    = true.
Proof.
  intros env run.
  apply (@null_article_result_complete env
           (Sample.request Sample.body_plain) initial_state
           (fst (fst run)) (snd (fst run)) (snd run)).
  - reflexivity.
  - vm_compute. in_list.
  - vm_compute. intuition discriminate.
  - intros p. vm_compute. intuition discriminate.
  - intros c. vm_compute. intuition discriminate.
Defined.

(** C4 fails on the code.  The page has no text and one image without a
    source; the parser returns no article, and the answer is a complete 200
    result with [article] null.  But the images of the result are not those
    of the rendered document: the document that line 115 queries is the one
    the parser was given at lines 73-74, and the parser has removed the
    image from it. *)
Theorem null_article_result_not_from_raw_document :
  let '(resp, _, evs) :=
    POST Bare.env (Sample.request Sample.body_plain) initial_state in
  ext_JSDOM Bare.env (str "<html></html>") (ext_url Bare.env)
  = Ok Bare.document /\
  images Bare.document = [{| src := []; alt := str "pic" |}] /\
  In (EvReadability true false) evs /\
  status resp = 200%Z /\
  exists r, body resp = ResultBody r /\
            r_article r = None /\ r_title r = str "T" /\ r_images r = [].
Proof.
  vm_compute. repeat split.
  - in_list.
  - eexists. repeat split.
Qed.

Example no_article_run :
  let '(resp, st', _) :=
    POST Sample.env_no_article (Sample.request Sample.body_plain) initial_state
  in
  status resp = 200%Z /\
  (exists r, body resp = ResultBody r /\ r_article r = None /\
             r_title r = str "Test" /\ r_wordCount r = 5 /\
             r_readingTimeMinutes r = 1) /\
  open_pages st' = [] /\ open_contexts st' = [].
Proof. vm_compute. repeat split. eexists. repeat split. Qed.

(** ** Screenshot capture *)

(** C2, as the code has it.  When the screenshot option is set and capture
    fails, the handler does not return the assembled result: it answers 500
    with the message of the capture error. *)
Theorem screenshot_failure_fails_request (env : Env) (req : Request)
    (st : State) (resp : Response) (st' : State) (evs : list Event) :
  POST env req st = (resp, st', evs) ->
  In (EvScreenshot false) evs ->
  truthy (field (js_or (field (req_json env req) "options") (JObj []))
            "screenshot") = true /\
  exists err,
    ext_screenshot env = Throws err /\
    resp = NextResponse_json (ErrorBody (error_message err)) 500.
Proof.
  intros H I. destruct st as [slot nid ctxs pages].
  exec_in H; injection H as <- <- <-; simpl in I;
    try (exfalso; intuition discriminate).
  all: split; [reflexivity|]; eexists; split; reflexivity.
Qed.

Lemma screenshot_failure_fails_request_witness :
  let run := POST Sample.env_shot_fails (Sample.request Sample.body_shot)
               initial_state in
  truthy (field (js_or (field (req_json Sample.env_shot_fails
                                 (Sample.request Sample.body_shot))
                          "options") (JObj []))
            "screenshot") = true /\
  exists err,
    ext_screenshot Sample.env_shot_fails = Throws err /\
    fst (fst run) = NextResponse_json (ErrorBody (error_message err)) 500.
Proof.
  intro run.
  apply (@screenshot_failure_fails_request Sample.env_shot_fails
           (Sample.request Sample.body_shot) initial_state
           (fst (fst run)) (snd (fst run)) (snd run)).
  - reflexivity.
  - vm_compute. in_list.
Defined.

(** C2 as stated fails: with the option set and a failing capture, no
    result without screenshot fields comes back. *)
Lemma screenshot_failure_is_not_tolerated :
  let env := Sample.env_shot_fails in
  let req := Sample.request Sample.body_shot in
  truthy (field (js_or (field (req_json env req) "options") (JObj []))
            "screenshot") = true /\
  is_ok (ext_screenshot env) = false /\
  ~ (exists r st' evs,
       POST env req initial_state
       = (NextResponse_json (ResultBody r) 200, st', evs) /\
       r_screenshot r = None /\ r_screenshotMime r = None).
Proof.
  cbv zeta. split; [reflexivity|]. split; [reflexivity|].
  intros [r [st' [evs [H _]]]]. vm_compute in H. discriminate H.
Qed.

(** ** The shared session *)

Lemma POST_with_rejected_slot (env : Env) (req : Request) (st : State)
    (err : JsVal) :
  __sagashi_browser st = Some (Throws err) ->
  truthy (field (req_json env req) "url") = true ->
  URL_valid env (ToString (field (req_json env req) "url")) = true ->
  POST env req st
  = (NextResponse_json (ErrorBody (error_message err)) 500, st,
     [EvConsoleError err]).
Proof.
  intros S T V. unfold POST, POST_try. rewrite T, V. cbn [negb].
  unfold bind at 1. unfold getBrowser. rewrite S. reflexivity.
Qed.

(** C3, as the code has it.  When the launch fails, the request is answered
    500 and the rejected launch stays in the shared slot: every later call of
    [getBrowser] fails with the same error without launching, and so every
    later request that passes validation is answered 500 with that error,
    whatever a new launch would have done. *)
Theorem launch_failure_is_remembered (env : Env) (req : Request)
    (st : State) (resp : Response) (st' : State) (evs : list Event) :
  POST env req st = (resp, st', evs) ->
  In (EvLaunch false) evs ->
  exists err,
    ext_launch env = Throws err /\
    resp = NextResponse_json (ErrorBody (error_message err)) 500 /\
    __sagashi_browser st' = Some (Throws err) /\
    (forall env2, getBrowser env2 st' = (Throws err, st', [])) /\
    (forall env2 req2,
       truthy (field (req_json env2 req2) "url") = true ->
       URL_valid env2 (ToString (field (req_json env2 req2) "url")) = true ->
       POST env2 req2 st'
       = (NextResponse_json (ErrorBody (error_message err)) 500, st',
          [EvConsoleError err])).
Proof.
  intros H I. destruct st as [slot nid ctxs pages].
  exec_in H; injection H as <- <- <-; simpl in I;
    try (exfalso; intuition discriminate).
  eexists. repeat split.
  intros env2 req2 T V. now apply POST_with_rejected_slot.
Qed.

Lemma launch_failure_is_remembered_witness :
  let run := POST Sample.env_launch_fails (Sample.request Sample.body_plain)
               initial_state in
  exists err,
    ext_launch Sample.env_launch_fails = Throws err /\
    fst (fst run) = NextResponse_json (ErrorBody (error_message err)) 500 /\
    __sagashi_browser (snd (fst run)) = Some (Throws err) /\
    (forall env2, getBrowser env2 (snd (fst run))
                  = (Throws err, snd (fst run), [])) /\
    (forall env2 req2,
       truthy (field (req_json env2 req2) "url") = true ->
       URL_valid env2 (ToString (field (req_json env2 req2) "url")) = true ->
       POST env2 req2 (snd (fst run))
       = (NextResponse_json (ErrorBody (error_message err)) 500,
          snd (fst run), [EvConsoleError err])).
Proof.
  intro run.
  apply (@launch_failure_is_remembered Sample.env_launch_fails
           (Sample.request Sample.body_plain) initial_state
           (fst (fst run)) (snd (fst run)) (snd run)).
  - reflexivity.
  - vm_compute. in_list.
Defined.

(** C3 as stated fails: after a failed launch, the next call of [getBrowser]
    in a world where the browser would launch makes no launch and fails with
    the earlier error. *)
Lemma launch_failure_poisons_session :
  let st1 := snd (fst (POST Sample.env_launch_fails
                         (Sample.request Sample.body_plain) initial_state)) in
  ext_launch Sample.env = Ok 7 /\
  ~ (exists ok, In (EvLaunch ok) (snd (getBrowser Sample.env st1))) /\
  fst (fst (getBrowser Sample.env st1)) <> ext_launch Sample.env /\
  fst (fst (getBrowser Sample.env st1))
  = Throws (Sample.failure "Executable not found") /\
  status (fst (fst (POST Sample.env (Sample.request Sample.body_plain) st1)))
  = 500%Z.
Proof.
  cbv zeta. split; [reflexivity|]. split; [|split; [|split]].
  - vm_compute. intros [ok []].
  - vm_compute. discriminate.
  - reflexivity.
  - reflexivity.
Qed.

(** ** Teardown *)

(** A request answered 200 leaves no page and no context behind; this covers
    the run in which navigation timed out. *)
Lemma success_closes_page_and_context (env : Env) (req : Request)
    (st : State) (r : Result) (st' : State) (evs : list Event) :
  well_formed st ->
  POST env req st = (NextResponse_json (ResultBody r) 200, st', evs) ->
  open_pages st' = open_pages st /\ open_contexts st' = open_contexts st.
Proof.
  intros [WC WP] H. destruct st as [slot nid ctxs pages]. simpl in WC, WP.
  exec_in H; injection H as <- <- <-; cbn [open_pages open_contexts].
  all: destruct (Nat.eq_dec nid nid) as [_|D]; [|congruence]; cbv beta iota.
  all: split; apply notin_remove; intros I;
    [apply WP in I | apply WC in I]; lia.
Qed.

(** A navigation that times out is not an error: the answer is 200 with
    status 0, and the page and the context are closed. *)
Example navigation_timeout_run :
  let '(resp, st', evs) :=
    POST Sample.env_timeout (Sample.request Sample.body_plain) initial_state
  in
  status resp = 200%Z /\
  (exists r, body resp = ResultBody r /\ r_status r = 0%Z) /\
  open_pages st' = [] /\ open_contexts st' = [] /\
  In (EvPageClose 1 true) evs /\ In (EvContextClose 0 true) evs.
Proof.
  vm_compute. split; [reflexivity|]. split; [eexists; split; reflexivity|].
  repeat split; in_list.
Qed.

(** A request that reached navigation and is answered 500 leaves the context
    it opened open, and the page as well unless the failure came after the
    page was closed. *)
Lemma failure_after_navigation_leaks (env : Env) (req : Request)
    (st : State) (resp : Response) (st' : State) (evs : list Event) :
  POST env req st = (resp, st', evs) ->
  navigated evs -> status resp = 500%Z ->
  In (next_id st) (open_contexts st') /\
  ((forall p, ~ In (EvPageClose p true) evs) ->
   In (S (next_id st)) (open_pages st')).
Proof.
  intros H [u [t [ok I]]] S. destruct st as [slot nid ctxs pages].
  exec_in H; injection H as <- <- <-; simpl in I, S;
    try discriminate S; try (exfalso; intuition discriminate).
  all: split; [simpl; auto|]; intros NP; simpl; auto.
  all: exfalso; apply (NP (Datatypes.S nid)); in_list.
Qed.

(** C1 fails on the code.  With the screenshot option set and a failing
    capture, the request reaches navigation and is answered 500 while the
    page and the context it opened are still open: the two [close] calls of
    lines 155-156 are skipped by the jump to the [catch] block. *)
Theorem screenshot_failure_leaks_page_and_context :
  let '(resp, st', evs) :=
    POST Sample.env_shot_fails (Sample.request Sample.body_shot) initial_state
  in
  navigated evs /\ In (EvScreenshot false) evs /\
  status resp = 500%Z /\
  open_pages st' = [1] /\ open_contexts st' = [0] /\
  (forall p ok, ~ In (EvPageClose p ok) evs) /\
  (forall c ok, ~ In (EvContextClose c ok) evs).
Proof.
  vm_compute. split; [|split; [|repeat split]].
  - do 3 eexists. in_list.
  - in_list.
  - intuition discriminate.
  - intuition discriminate.
Qed.

(** * Further properties of the code *)

(** ** Trimming, splitting and joining *)

Lemma trimStart_head (s r : jsstring) (c : N) :
  trimStart s = c :: r -> is_ws c = false.
Proof.
  induction s as [|d s IH]; simpl; [discriminate|].
  destruct (is_ws d) eqn:D; auto. intros E. injection E as <- _. exact D.
Qed.

Lemma trimEnd_ws_suffix (s : jsstring) :
  exists w, s = trimEnd s ++ w /\ all_ws w = true.
Proof.
  unfold trimEnd, all_ws. destruct (trimStart_ws_prefix (rev s)) as [w [E W]].
  exists (rev w). split.
  - rewrite <- rev_app_distr, <- E. now rewrite rev_involutive.
  - rewrite forallb_forall in *. intros x I. apply W. now apply in_rev.
Qed.

(** [trim] removes white space from the two ends and nothing else: what it
    cuts off is white space, and what it returns neither starts nor ends with
    a white-space unit. *)
Theorem trim_strips_outer_white_space (s : jsstring) :
  (exists w1 w2, s = w1 ++ trim s ++ w2 /\
                 all_ws w1 = true /\ all_ws w2 = true) /\
  (forall c r, trim s = c :: r -> is_ws c = false) /\
  (forall r c, trim s = r ++ [c] -> is_ws c = false).
Proof.
  split; [|split].
  - destruct (trimStart_ws_prefix s) as [w1 [E1 W1]].
    destruct (trimEnd_ws_suffix (trimStart s)) as [w2 [E2 W2]].
    exists w1, w2. unfold trim. now rewrite <- E2, <- E1.
  - intros c r E.
    assert (F : trimStart (trim s) = trim s).
    { unfold trim. apply trimEnd_keeps_start, trimStart_fixed. }
    rewrite E in F. now apply trimStart_head in F.
  - intros r c E. unfold trim, trimEnd in E.
    apply (f_equal (@rev N)) in E. rewrite rev_involutive, rev_unit in E.
    now apply trimStart_head in E.
Qed.

Lemma join_cons_cons (sep p q : jsstring) (rest : list jsstring) :
  join sep (p :: q :: rest) = p ++ sep ++ join sep (q :: rest).
Proof. reflexivity. Qed.

Lemma join_push (sep : jsstring) (c : N) (l : jsstring) (ls : list jsstring) :
  join sep ((c :: l) :: ls) = c :: join sep (l :: ls).
Proof. destruct ls; reflexivity. Qed.

Lemma join_split_on (sep : N) (s : jsstring) :
  join [sep] (split_on sep s) = s.
Proof.
  induction s as [|c s IH]; [reflexivity|]. simpl.
  pose proof (split_on_not_nil sep s) as NN.
  destruct (split_on sep s) as [|l ls]; [congruence|].
  destruct (N.eqb_spec c sep) as [->|_].
  - rewrite join_cons_cons. cbn [app]. now rewrite IH.
  - rewrite join_push. now rewrite IH.
Qed.

Lemma split_on_length (sep : N) (s : jsstring) :
  List.length (split_on sep s) = S (count_occ N.eq_dec s sep).
Proof.
  induction s as [|c s IH]; [reflexivity|]. simpl.
  pose proof (split_on_not_nil sep s) as NN.
  destruct (N.eqb_spec c sep) as [->|D].
  - destruct (N.eq_dec sep sep); [|congruence]. simpl. now rewrite IH.
  - destruct (N.eq_dec c sep); [congruence|].
    destruct (split_on sep s) as [|l ls]; [congruence|]. exact IH.
Qed.

(** Splitting at a separator and joining with it gives the text back; no
    piece holds the separator, and there is one piece more than there are
    separators in the text. *)
Theorem split_join_round_trip (sep : N) (s : jsstring) :
  join [sep] (split_on sep s) = s /\
  (forall p, In p (split_on sep s) -> ~ In sep p) /\
  List.length (split_on sep s) = S (count_occ N.eq_dec s sep).
Proof.
  split; [apply join_split_on|]. split; [|apply split_on_length].
  intros p. apply split_on_pieces.
Qed.

(** ** Words and normalization *)

Lemma count_tokens_from_skip_ws (b : bool) (w rest : jsstring) :
  all_ws w = true -> w <> [] ->
  count_tokens_from b (w ++ rest) = count_tokens rest.
Proof.
  unfold all_ws, count_tokens. revert b.
  induction w as [|c w IH]; intros b W NE; [congruence|].
  simpl in W. apply andb_true_iff in W. destruct W as [C W].
  simpl. rewrite C. destruct w as [|d w]; [reflexivity|].
  apply IH; [exact W|discriminate].
Qed.

Lemma count_tokens_from_sep (b : bool) (a sep rest : jsstring) :
  all_ws sep = true -> sep <> [] ->
  count_tokens_from b (a ++ sep ++ rest)
  = count_tokens_from b a + count_tokens rest.
Proof.
  intros W NE. revert b. induction a as [|c a IH]; intros b; simpl.
  - now apply count_tokens_from_skip_ws.
  - destruct (is_ws c); rewrite IH; lia.
Qed.

Lemma count_tokens_join (sep : jsstring) (ps : list jsstring) :
  all_ws sep = true -> sep <> [] ->
  count_tokens (join sep ps) = list_sum (List.map count_tokens ps).
Proof.
  intros W NE. induction ps as [|p ps IH]; [reflexivity|].
  destruct ps as [|q rest].
  - simpl. lia.
  - rewrite join_cons_cons. unfold count_tokens at 1.
    rewrite count_tokens_from_sep by assumption. rewrite IH. reflexivity.
Qed.

Lemma count_tokens_nonempty_only (ps : list jsstring) :
  list_sum (List.map count_tokens (filter nonempty ps))
  = list_sum (List.map count_tokens ps).
Proof.
  induction ps as [|p ps IH]; [reflexivity|].
  destruct p as [|c p]; simpl; [exact IH|]. now rewrite IH.
Qed.

Lemma count_tokens_map_trim (ps : list jsstring) :
  list_sum (List.map count_tokens (List.map trim ps))
  = list_sum (List.map count_tokens ps).
Proof.
  induction ps as [|p ps IH]; [reflexivity|].
  simpl. now rewrite count_tokens_trim, IH.
Qed.

Lemma cleaned_count_tokens (s : jsstring) :
  count_tokens (cleanedTextContent s) = count_tokens s.
Proof.
  change (cleanedTextContent s)
    with (join [LF; LF] (filter nonempty (List.map trim (split_on LF s)))).
  rewrite count_tokens_join by (reflexivity || discriminate).
  rewrite count_tokens_nonempty_only.
  rewrite count_tokens_map_trim.
  rewrite <- (@count_tokens_join [LF]) by (reflexivity || discriminate).
  now rewrite join_split_on.
Qed.

Lemma trim_head (s r : jsstring) (c : N) : trim s = c :: r -> is_ws c = false.
Proof.
  intros E.
  assert (F : trimStart (trim s) = trim s).
  { unfold trim. apply trimEnd_keeps_start, trimStart_fixed. }
  rewrite E in F. now apply trimStart_head in F.
Qed.

Lemma count_tokens_zero (s : jsstring) :
  count_tokens s = 0 <-> all_ws s = true.
Proof.
  unfold count_tokens, all_ws. induction s as [|c s IH]; simpl.
  - tauto.
  - destruct (is_ws c); simpl; [exact IH|]. split; [lia|discriminate].
Qed.

Lemma cleaned_blank (s : jsstring) :
  cleanedTextContent s = [] <-> all_ws s = true.
Proof.
  split.
  - intros E. apply count_tokens_zero. rewrite <- cleaned_count_tokens, E.
    reflexivity.
  - intros W. apply count_tokens_zero in W.
    rewrite <- cleaned_count_tokens in W. apply count_tokens_zero in W.
    pose proof (kept_lines_good s) as G. revert W.
    change (cleanedTextContent s)
      with (join [LF; LF]
              (filter (fun line => nonempty line)
                 (List.map (fun line => trim line) (split_on LF s)))).
    destruct (filter (fun line => nonempty line)
                (List.map (fun line => trim line) (split_on LF s)))
      as [|l ls]; [reflexivity|].
    simpl in G. apply andb_true_iff in G. destruct G as [G _].
    apply good_line_spec in G. destruct G as [NE [_ T]].
    destruct l as [|c l]; [congruence|].
    apply trim_head in T. rewrite join_push. simpl. rewrite T. discriminate.
Qed.

(** Normalization keeps the words: the normalized text has as many
    white-space-delimited tokens as the text it was made from, and it is
    empty exactly when that text holds nothing but white space. *)
Theorem normalization_keeps_words (s : jsstring) :
  count_tokens (cleanedTextContent s) = count_tokens s /\
  (cleanedTextContent s = [] <-> all_ws s = true).
Proof. split; [apply cleaned_count_tokens | apply cleaned_blank]. Qed.


(** One minute is reported for up to 200 words, more than a minute above
    that, and more words never give a shorter reading time. *)
Theorem reading_time_steps (n m : nat) :
  (readingTimeMinutes n = 1 <-> n <= 200) /\
  (n <= m -> readingTimeMinutes n <= readingTimeMinutes m) /\
  200 * (readingTimeMinutes n - 1) <= n.
Proof.
  unfold readingTimeMinutes.
  pose proof (Math_ceil_div_200 n) as [Ln Un].
  pose proof (Math_ceil_div_200 m) as [Lm Um].
  repeat split; intros; lia.
Qed.

(** ** Deduplication *)

Lemma Set_fold_fresh (xs members : list jsstring) :
  NoDup xs -> (forall x, In x xs -> ~ In x members) ->
  fold_left Set_add xs members = members ++ xs.
Proof.
  revert members. induction xs as [|x xs IH]; intros members ND D; simpl.
  - now rewrite app_nil_r.
  - apply NoDup_cons_iff in ND. destruct ND as [NI ND].
    destruct (Set_add_cases members x) as [[I _]|[_ ->]].
    + exfalso. apply (D x); simpl; auto.
    + rewrite IH; auto.
      * now rewrite <- app_assoc.
      * intros y Iy My. apply in_app_or in My. destruct My as [My|[<-|[]]].
        -- apply (D y); simpl; auto.
        -- tauto.
Qed.

(** [Array.from(new Set(xs))] holds exactly the members of [xs], each once;
    a list without repetition comes back unchanged, so deduplicating twice is
    deduplicating once. *)
Theorem Array_from_Set_members (xs : list jsstring) :
  NoDup (Array_from_Set xs) /\
  (forall x, In x (Array_from_Set xs) <-> In x xs) /\
  (NoDup xs -> Array_from_Set xs = xs) /\
  Array_from_Set (Array_from_Set xs) = Array_from_Set xs.
Proof.
  assert (ND : NoDup (Array_from_Set xs)).
  { apply Set_fold_NoDup. constructor. }
  assert (F : forall l, NoDup l -> Array_from_Set l = l).
  { intros l N. unfold Array_from_Set. rewrite Set_fold_fresh; auto. }
  repeat split; auto.
  - intros I. apply Set_fold_In in I. simpl in I. tauto.
  - intros I. apply Set_fold_In. auto.
Qed.

(** ** Headings, images and metadata *)

(** Every heading of the document is reported, in document order and under
    its tag, with a text that carries no white space at either end. *)
Theorem headings_all_kept (doc : Document) :
  List.length (headings doc) = List.length (doc_headings doc) /\
  List.map tag (headings doc) = List.map fst (doc_headings doc) /\
  (forall h, In h (headings doc) -> trim (text h) = text h).
Proof.
  unfold headings. split; [apply length_map|]. split.
  - rewrite map_map. reflexivity.
  - intros h I. apply in_map_iff in I. destruct I as [[t [x|]] [<- _]]; simpl.
    + apply trim_fixed.
    + reflexivity.
Qed.

(** The images of the result are the first 500 images of the document, in
    document order and with repetitions, each with its [alt] text or the
    empty string. *)
Theorem images_first_500 (doc : Document) (i : nat) :
  List.length (images doc) = Nat.min 500 (List.length (doc_imgs doc)) /\
  (i < 500 ->
   nth_error (images doc) i
   = option_map (fun p => {| src := fst p; alt := or_str (snd p) [] |})
       (nth_error (doc_imgs doc) i)) /\
  (500 <= i -> nth_error (images doc) i = None).
Proof.
  unfold images, slice0. split; [|split].
  - now rewrite length_firstn, length_map.
  - intros L. rewrite nth_error_firstn.
    apply Nat.ltb_lt in L. rewrite L. apply nth_error_map.
  - intros L. rewrite nth_error_firstn.
    destruct (Nat.ltb_spec i 500); [lia|reflexivity].
Qed.

(** The description is the first non-empty content among six meta tags:
    [description], [og:description] and [twitter:description], each looked
    up by [name] and then by [property]; the image is the first non-empty
    among [og:image] and [twitter:image], looked up the same way.  Both are
    the empty string when every lookup is empty or missing. *)
Theorem metadata_first_non_empty (doc : Document) :
  let by_name n := or_str (doc_meta_name doc n) [] in
  let by_property n := or_str (doc_meta_property doc n) [] in
  description doc
  = hd [] (filter nonempty
             [by_name "description"; by_property "description";
              by_name "og:description"; by_property "og:description";
              by_name "twitter:description";
              by_property "twitter:description"]%string) /\
  ogImage doc
  = hd [] (filter nonempty
             [by_name "og:image"; by_property "og:image";
              by_name "twitter:image"; by_property "twitter:image"]%string).
Proof.
  cbv zeta. unfold description, ogImage, getMeta.
  split.
  - destruct (doc_meta_name doc "description") as [[|? ?]|];
      destruct (doc_meta_property doc "description") as [[|? ?]|];
      destruct (doc_meta_name doc "og:description") as [[|? ?]|];
      destruct (doc_meta_property doc "og:description") as [[|? ?]|];
      destruct (doc_meta_name doc "twitter:description") as [[|? ?]|];
      destruct (doc_meta_property doc "twitter:description") as [[|? ?]|];
      reflexivity.
  - destruct (doc_meta_name doc "og:image") as [[|? ?]|];
      destruct (doc_meta_property doc "og:image") as [[|? ?]|];
      destruct (doc_meta_name doc "twitter:image") as [[|? ?]|];
      destruct (doc_meta_property doc "twitter:image") as [[|? ?]|];
      reflexivity.
Qed.

Lemma trim_all_ws (t : jsstring) : all_ws t = true -> trim t = [].
Proof.
  intros W. unfold trim.
  assert (E : trimStart t = []).
  { unfold all_ws in W. induction t as [|c t IH]; [reflexivity|].
    simpl in *. apply andb_true_iff in W. destruct W as [-> W]. auto. }
  rewrite E. reflexivity.
Qed.

(** The title is the trimmed text of the title element whenever that text
    is not empty, whatever the article says; the article's title is used
    only when the element is missing or empty.  A title element holding
    only white space therefore gives the empty title. *)
Theorem title_element_first (doc : Document) (article : option Article) :
  (forall t, doc_title doc = Some t -> t <> [] ->
             title doc article = trim t /\
             (all_ws t = true -> title doc article = [])) /\
  (doc_title doc = None \/ doc_title doc = Some [] ->
   title doc article
   = trim (match article with
           | Some a => text_or (art_title a) []
           | None => []
           end)) /\
  trim (title doc article) = title doc article.
Proof.
  unfold title. split; [|split].
  - intros t E NE. rewrite E. destruct t as [|c t]; [congruence|].
    cbn [or_str]. split; [reflexivity|apply trim_all_ws].
  - intros [E|E]; rewrite E; cbn [or_str]; destruct article; reflexivity.
  - apply trim_fixed.
Qed.

(** A script body that parses contributes its parsed value at its place in
    the array when that value is truthy, and nothing when it is [null],
    [false], [0] or the empty string; every entry of the array is truthy and
    there are at most as many entries as scripts. *)
Theorem jsonLd_parsed_values (P : jsstring -> option JsVal)
    (before after : list (option jsstring)) (t : jsstring) (v : JsVal) :
  P t = Some v -> t <> [] ->
  jsonLd P (before ++ Some t :: after)
  = jsonLd P before ++ (if truthy v then [v] else []) ++ jsonLd P after /\
  (forall x, In x (jsonLd P (before ++ Some t :: after)) -> truthy x = true) /\
  List.length (jsonLd P (before ++ Some t :: after))
  <= List.length (before ++ Some t :: after).
Proof.
  intros E NE. split; [|split].
  - rewrite jsonLd_app, jsonLd_cons. unfold parse_or_raw.
    destruct t as [|c t]; [congruence|]. cbn [or_str]. now rewrite E.
  - intros x I. apply filter_In in I. tauto.
  - unfold jsonLd. rewrite <- (length_map (parse_or_raw P)).
    apply filter_length_le.
Qed.

Lemma jsonLd_parsed_values_witness :
  jsonLd Sample.parse ([Some (str "{oops")] ++ Some (str "null") :: [None])
  = jsonLd Sample.parse [Some (str "{oops")]
    ++ (if truthy JNull then [JNull] else []) ++ jsonLd Sample.parse [None] /\
  (forall x, In x (jsonLd Sample.parse
                     ([Some (str "{oops")] ++ Some (str "null") :: [None])) ->
             truthy x = true) /\
  List.length (jsonLd Sample.parse
                 ([Some (str "{oops")] ++ Some (str "null") :: [None]))
  <= List.length ([Some (str "{oops")] ++ Some (str "null") :: [None]).
Proof.
  apply (@jsonLd_parsed_values Sample.parse [Some (str "{oops")] [None]
           (str "null") JNull).
  - reflexivity.
  - discriminate.
Defined.

(** ** The session over many requests *)

Lemma launches_app (a b : list Event) :
  launches (a ++ b) = launches a + launches b.
Proof. unfold launches. now rewrite filter_app, length_app. Qed.

(** A launch is made exactly when the slot goes from empty to filled, and a
    filled slot is never written again. *)
Lemma POST_launch_account (env : Env) (req : Request) (st : State) :
  let '(_, st', evs) := POST env req st in
  launches evs + slot_filled st = slot_filled st' /\
  (forall p, __sagashi_browser st = Some p -> __sagashi_browser st' = Some p).
Proof.
  destruct (POST env req st) as [[resp st'] evs] eqn:H.
  destruct st as [slot nid ctxs pages].
  exec_in H; injection H as <- <- <-; split; try reflexivity;
    try (intros p E; exact E); intros p E; discriminate E.
Qed.

(** A request served while the slot holds a launch promise makes no launch
    and leaves the slot as it is, whether the request succeeds or fails. *)
Theorem filled_slot_is_reused (env : Env) (req : Request) (st : State)
    (resp : Response) (st' : State) (evs : list Event)
    (promise : Outcome Browser) :
  POST env req st = (resp, st', evs) ->
  __sagashi_browser st = Some promise ->
  __sagashi_browser st' = Some promise /\ launches evs = 0.
Proof.
  intros H E. pose proof (POST_launch_account env req st) as A.
  rewrite H in A. destruct A as [L K]. split; [now apply K|].
  unfold slot_filled in L. rewrite E, (K _ E) in L. lia.
Qed.

Lemma filled_slot_is_reused_witness :
  let st1 := snd (fst (POST Sample.env (Sample.request Sample.body_plain)
                         initial_state)) in
  let run := POST Sample.env_shot_fails (Sample.request Sample.body_shot) st1 in
  __sagashi_browser (snd (fst run)) = Some (Ok 7) /\ launches (snd run) = 0.
Proof.
  intros st1 run.
  apply (@filled_slot_is_reused Sample.env_shot_fails
           (Sample.request Sample.body_shot) st1
           (fst (fst run)) (snd (fst run)) (snd run) (Ok 7)).
  - reflexivity.
  - reflexivity.
Defined.

(** Over any sequence of requests, in any worlds, the browser is launched at
    most once; it is not launched at all when the slot was filled before,
    and then the slot still holds the same promise at the end. *)
Theorem browser_launched_at_most_once (requests : list (Env * Request))
    (st : State) :
  let '(_, st', evs) := serve requests st in
  launches evs + slot_filled st = slot_filled st' /\
  launches evs <= 1 /\
  (forall p, __sagashi_browser st = Some p ->
             launches evs = 0 /\ __sagashi_browser st' = Some p).
Proof.
  assert (G : forall reqs s,
             let '(_, s', evs) := serve reqs s in
             launches evs + slot_filled s = slot_filled s' /\
             (forall p, __sagashi_browser s = Some p ->
                        __sagashi_browser s' = Some p)).
  { induction reqs as [|[env req] rest IH]; intros s; simpl.
    - split; auto.
    - pose proof (POST_launch_account env req s) as A.
      destruct (POST env req s) as [[resp s1] evs1].
      specialize (IH s1). destruct (serve rest s1) as [[resps s2] evs2].
      destruct A as [A1 A2]. destruct IH as [I1 I2].
      rewrite launches_app. split; [lia|]. intros p E. auto. }
  specialize (G requests st). destruct (serve requests st) as [[resps st'] evs].
  destruct G as [G1 G2]. split; [exact G1|]. split.
  - unfold slot_filled in G1. destruct (__sagashi_browser st');
      destruct (__sagashi_browser st); lia.
  - intros p E. split; [|now apply G2].
    unfold slot_filled in G1. rewrite E, (G2 _ E) in G1. lia.
Qed.

(** ** Answers *)

Lemma error_message_truthy (err : JsVal) : truthy (error_message err) = true.
Proof.
  unfold error_message, js_or.
  destruct (truthy (field err "message")) eqn:T; [exact T|reflexivity].
Qed.

(** Every answer has status 200, 400 or 500; it carries a result exactly
    when the status is 200, and otherwise an error value that is never
    empty, [null] or missing. *)
Theorem response_kinds (env : Env) (req : Request) (st : State) :
  let '(resp, _, _) := POST env req st in
  (status resp = 200 \/ status resp = 400 \/ status resp = 500)%Z /\
  ((exists r, body resp = ResultBody r) <-> status resp = 200%Z) /\
  (forall e, body resp = ErrorBody e -> truthy e = true).
Proof.
  destruct (POST env req st) as [[resp st'] evs] eqn:H.
  destruct st as [slot nid ctxs pages].
  exec_in H; injection H as <- <- <-; cbn [status body NextResponse_json].
  all: split; [auto|]; split;
    [split; [intros [r E]; (discriminate E || reflexivity)
            |intros E; (discriminate E || (eexists; reflexivity))]|].
  all: intros e E; first [discriminate E | injection E as <-];
    first [reflexivity | apply error_message_truthy].
Qed.

(** A request is answered 400 exactly when its [url] is falsy or does not
    parse; an answer of 400 comes without any outside call and any change of
    state, and every other request has reached the session manager, which
    leaves the slot filled. *)
Theorem validation_decides_400 (env : Env) (req : Request) (st : State) :
  let url := field (req_json env req) "url" in
  let '(resp, st', evs) := POST env req st in
  (status resp = 400%Z <->
   truthy url = false \/ URL_valid env (ToString url) = false) /\
  (status resp = 400%Z -> st' = st /\ evs = []) /\
  (status resp <> 400%Z -> __sagashi_browser st' <> None).
Proof.
  cbv zeta. destruct (POST env req st) as [[resp st'] evs] eqn:H.
  destruct st as [slot nid ctxs pages].
  exec_in H; injection H as <- <- <-;
    cbn [status body NextResponse_json __sagashi_browser];
    repeat match goal with
           | E : negb _ = true |- _ => apply (proj1 (negb_true_iff _)) in E
           | E : negb _ = false |- _ => apply (proj1 (negb_false_iff _)) in E
           end.
  all: split; [split; [intros E; first [discriminate E | tauto]
                      |intros [E|E]; first [reflexivity | congruence]]|].
  all: split; [intros E; first [discriminate E | split; reflexivity]|].
  all: intros E; first [exfalso; apply E; reflexivity | discriminate].
Qed.

(** [console.error] is called exactly when the answer is 500: once, as the
    last outside call, with the value that was thrown, whose message (or
    "unknown error") is the error of the answer. *)
Theorem console_error_on_500 (env : Env) (req : Request) (st : State) :
  let '(resp, _, evs) := POST env req st in
  (status resp = 500%Z ->
   exists err pre,
     evs = pre ++ [EvConsoleError err] /\
     body resp = ErrorBody (error_message err) /\
     forall x, ~ In (EvConsoleError x) pre) /\
  (status resp <> 500%Z -> forall x, ~ In (EvConsoleError x) evs).
Proof.
  destruct (POST env req st) as [[resp st'] evs] eqn:H.
  destruct st as [slot nid ctxs pages].
  exec_in H; injection H as <- <- <-; cbn [status body NextResponse_json].
  all: split;
    [intros E;
     first [discriminate E
           |match goal with
            | |- exists err pre, ?l = _ /\ _ =>
                exists (match last l (EvLaunch true) with
                        | EvConsoleError e => e
                        | _ => JNull
                        end), (removelast l)
            end;
            split; [reflexivity|]; split; [reflexivity|];
            intros x I; simpl in I; intuition discriminate]
    |intros E;
     first [exfalso; apply E; reflexivity
           |intros x I; simpl in I; intuition discriminate]].
Qed.

(** ** What reaches the browser and what comes back *)

(** A result echoes the request's [url], reports the page's own URL and the
    time of assembly, and carries as status the status of the navigation
    response, or 0 when navigation failed or gave no response: a failed
    navigation alone never turns the answer into an error. *)
Theorem result_reports_navigation (env : Env) (req : Request) (st : State)
    (r : Result) (st' : State) (evs : list Event) :
  POST env req st = (NextResponse_json (ResultBody r) 200, st', evs) ->
  let url := field (req_json env req) "url" in
  r_url r = url /\ truthy (r_url r) = true /\
  r_finalUrl r = ext_url env /\
  r_scrapedAt r = Date_toISOString env /\
  r_status r
  = match ext_goto env url
            (number_or (field (options_of env req) "timeout") 20000) with
    | Ok (Some s) => s
    | _ => 0%Z
    end.
Proof.
  cbv zeta. unfold options_of. intros H.
  destruct st as [slot nid ctxs pages].
  exec_in H; injection H as <- <- <-;
    cbn [with_screenshot assemble r_url r_finalUrl r_scrapedAt r_status];
    repeat match goal with
           | E : negb _ = false |- _ => apply (proj1 (negb_false_iff _)) in E
           end.
  all: repeat split; assumption.
Qed.

Lemma result_reports_navigation_witness :
  let env := Sample.env_timeout in
  let req := Sample.request Sample.body_plain in
  let r := Runs.timeout_result in
  r_url r = field (req_json env req) "url" /\
  truthy (r_url r) = true /\
  r_finalUrl r = ext_url env /\
  r_scrapedAt r = Date_toISOString env /\
  r_status r
  = match ext_goto env (field (req_json env req) "url")
            (number_or (field (options_of env req) "timeout") 20000) with
    | Ok (Some s) => s
    | _ => 0%Z
    end.
Proof.
  intros env req r.
  apply (@result_reports_navigation env req initial_state r Runs.settled
           (snd (POST env req initial_state))).
  vm_compute. reflexivity.
Defined.

Lemma not_false_spec (v : JsVal) : not_false v = true <-> v <> JBool false.
Proof.
  destruct v as [| |[|]| | | |]; simpl; split; intros; congruence.
Qed.



(** The interception rule is installed on every context that was opened,
    unless [options.blockResources] is exactly [false]: any other value,
    [0], [null] and a missing option included, leaves blocking on. *)
Theorem blocking_on_unless_false (env : Env) (req : Request) (st : State)
    (resp : Response) (st' : State) (evs : list Event) :
  POST env req st = (resp, st', evs) ->
  (exists ua, In (EvNewContext ua true) evs) ->
  ((exists ok, In (EvRoute ok) evs) <->
   field (options_of env req) "blockResources" <> JBool false).
Proof.
  unfold options_of. intros H [ua I]. rewrite <- not_false_spec.
  destruct st as [slot nid ctxs pages].
  exec_in H; injection H as <- <- <-; simpl in I;
    try (exfalso; intuition discriminate).
  all: split; [intros [ok R]; simpl in R;
               first [reflexivity | exfalso; intuition discriminate]
              |intros E; first [discriminate E | eexists; in_list]].
Qed.

Lemma blocking_on_unless_false_witness :
  let env := Sample.env in
  let req := Sample.request Sample.body_plain in
  (exists ok, In (EvRoute ok) (snd (POST env req initial_state))) <->
  field (options_of env req) "blockResources" <> JBool false.
Proof.
  intros env req.
  apply (@blocking_on_unless_false env req initial_state
           (NextResponse_json (ResultBody Runs.plain_result) 200)
           Runs.settled (snd (POST env req initial_state))).
  - vm_compute. reflexivity.
  - eexists. vm_compute. in_list.
Defined.

(** ** Teardown and isolation *)

(** An answer of 200 comes after exactly one page close followed by one
    context close, both of the page and context this request opened, as the
    last two outside calls; a screenshot, when one is taken, is taken before
    them. *)
Theorem teardown_is_last (env : Env) (req : Request) (st : State)
    (r : Result) (st' : State) (evs : list Event) :
  POST env req st = (NextResponse_json (ResultBody r) 200, st', evs) ->
  exists pre,
    evs = pre ++ [EvPageClose (S (next_id st)) true;
                  EvContextClose (next_id st) true] /\
    forallb (fun e => negb (is_close e)) pre = true.
Proof.
  intros H. destruct st as [slot nid ctxs pages].
  exec_in H; injection H as <- <- <-; cbn [next_id].
  all: match goal with
       | |- exists pre, ?l = _ /\ _ =>
           exists (firstn (List.length l - 2) l)
       end; split; reflexivity.
Qed.

Lemma teardown_is_last_witness :
  exists pre,
    snd (POST Sample.env (Sample.request Sample.body_shot) initial_state)
    = pre ++ [EvPageClose (S (next_id initial_state)) true;
              EvContextClose (next_id initial_state) true] /\
    forallb (fun e => negb (is_close e)) pre = true.
Proof.
  apply (@teardown_is_last Sample.env (Sample.request Sample.body_shot)
           initial_state Runs.shot_result Runs.settled
           (snd (POST Sample.env (Sample.request Sample.body_shot)
                   initial_state))).
  vm_compute. reflexivity.
Defined.

Lemma no_screenshot_keys (r : Result) :
  r_screenshot r = None -> r_screenshotMime r = None ->
  field (Result_json r) "screenshot" = JUndefined /\
  field (Result_json r) "screenshotMime" = JUndefined.
Proof.
  intros E1 E2. destruct r. simpl in E1, E2. subst.
  split; vm_compute; reflexivity.
Qed.

(** The screenshot is opt-in.  When [options.screenshot] is falsy no capture
    is attempted in any run, and a result carries neither screenshot key;
    when it is truthy, a result carries the base64 text of the captured
    buffer with the MIME type image/png. *)
Theorem screenshot_is_opt_in (env : Env) (req : Request) (st : State)
    (resp : Response) (st' : State) (evs : list Event) :
  POST env req st = (resp, st', evs) ->
  let wanted := truthy (field (options_of env req) "screenshot") in
  (wanted = false ->
   (forall ok, ~ In (EvScreenshot ok) evs) /\
   (forall r, body resp = ResultBody r ->
      r_screenshot r = None /\ r_screenshotMime r = None /\
      field (Result_json r) "screenshot" = JUndefined /\
      field (Result_json r) "screenshotMime" = JUndefined)) /\
  (wanted = true ->
   forall r, body resp = ResultBody r ->
     exists buf,
       ext_screenshot env = Ok buf /\
       r_screenshot r = Some (Buffer_base64 env buf) /\
       r_screenshotMime r = Some (str "image/png") /\
       In (EvScreenshot true) evs).
Proof.
  cbv zeta. unfold options_of. intros H.
  destruct st as [slot nid ctxs pages].
  exec_in H; injection H as <- <- <-; cbn [body NextResponse_json].
  all: split; intros W; try discriminate W.
  all: try (split; [intros ok I; simpl in I; intuition discriminate|]).
  all: intros r E; try discriminate E; injection E as <-.
  all: first [ split; [reflexivity|]; split; [reflexivity|];
               apply no_screenshot_keys; reflexivity
             | eexists; split; [reflexivity|]; split; [reflexivity|];
               split; [reflexivity|]; in_list ].
Qed.

Lemma screenshot_is_opt_in_witness :
  let env := Sample.env in
  let req := Sample.request Sample.body_shot in
  let resp := NextResponse_json (ResultBody Runs.shot_result) 200 in
  let evs := snd (POST env req initial_state) in
  let wanted := truthy (field (options_of env req) "screenshot") in
  (wanted = false ->
   (forall ok, ~ In (EvScreenshot ok) evs) /\
   (forall r, body resp = ResultBody r ->
      r_screenshot r = None /\ r_screenshotMime r = None /\
      field (Result_json r) "screenshot" = JUndefined /\
      field (Result_json r) "screenshotMime" = JUndefined)) /\
  (wanted = true ->
   forall r, body resp = ResultBody r ->
     exists buf,
       ext_screenshot env = Ok buf /\
       r_screenshot r = Some (Buffer_base64 env buf) /\
       r_screenshotMime r = Some (str "image/png") /\
       In (EvScreenshot true) evs).
Proof.
  intros env req resp evs.
  apply (@screenshot_is_opt_in env req initial_state resp Runs.settled evs).
  vm_compute. reflexivity.
Defined.

(** A request works on identifiers of its own: it closes no context and no
    page that was open before it, leaves open at most the one context and
    the one page it opened, uses at most two identifiers, and hands on a
    well-formed state. *)
Theorem request_touches_only_its_own (env : Env) (req : Request)
    (st : State) (resp : Response) (st' : State) (evs : list Event) :
  well_formed st ->
  POST env req st = (resp, st', evs) ->
  well_formed st' /\
  next_id st <= next_id st' <= next_id st + 2 /\
  incl (open_contexts st) (open_contexts st') /\
  incl (open_pages st) (open_pages st') /\
  incl (open_contexts st') (next_id st :: open_contexts st) /\
  incl (open_pages st') (S (next_id st) :: open_pages st).
Proof.
  intros [WC WP] H. destruct st as [slot nid ctxs pages]. simpl in WC, WP.
  assert (RC : remove Nat.eq_dec nid ctxs = ctxs).
  { apply notin_remove. intros I. apply WC in I. lia. }
  assert (RP : remove Nat.eq_dec (S nid) pages = pages).
  { apply notin_remove. intros I. apply WP in I. lia. }
  assert (WC1 : forall c, In c (nid :: ctxs) -> c < S nid).
  { intros c [<-|I]; [lia|]. apply WC in I. lia. }
  assert (WC2 : forall c, In c (nid :: ctxs) -> c < S (S nid)).
  { intros c I. apply WC1 in I. lia. }
  assert (WC3 : forall c, In c ctxs -> c < S (S nid)).
  { intros c I. apply WC in I. lia. }
  assert (WP1 : forall p, In p pages -> p < S nid).
  { intros p I. apply WP in I. lia. }
  assert (WP2 : forall p, In p (S nid :: pages) -> p < S (S nid)).
  { intros p [<-|I]; [lia|]. apply WP in I. lia. }
  assert (WP3 : forall p, In p pages -> p < S (S nid)).
  { intros p I. apply WP in I. lia. }
  exec_in H; injection H as <- <- <-; unfold well_formed;
    cbn [next_id open_contexts open_pages];
    try (destruct (Nat.eq_dec nid nid) as [_|D]; [|congruence]);
    cbv beta iota; rewrite ?RC, ?RP.
  all: split; [split; assumption|].
  all: split; [lia|].
  all: repeat split; auto using incl_refl, incl_tl.
Qed.

Lemma request_touches_only_its_own_witness :
  let st := Runs.settled in
  let run := POST Sample.env_shot_fails (Sample.request Sample.body_shot) st in
  let st' := snd (fst run) in
  well_formed st' /\
  next_id st <= next_id st' <= next_id st + 2 /\
  incl (open_contexts st) (open_contexts st') /\
  incl (open_pages st) (open_pages st') /\
  incl (open_contexts st') (next_id st :: open_contexts st) /\
  incl (open_pages st') (S (next_id st) :: open_pages st).
Proof.
  intros st run st'.
  apply (@request_touches_only_its_own Sample.env_shot_fails
           (Sample.request Sample.body_shot) st (fst (fst run)) st'
           (snd run)).
  - split; intros x I; destruct I.
  - reflexivity.
Defined.

(** ** Runs of the lemmas on teardown and assembly *)

Lemma success_closes_page_and_context_witness :
  open_pages Runs.settled = open_pages initial_state /\
  open_contexts Runs.settled = open_contexts initial_state.
Proof.
  apply (@success_closes_page_and_context Sample.env
           (Sample.request Sample.body_plain) initial_state
           Runs.plain_result Runs.settled
           (snd (POST Sample.env (Sample.request Sample.body_plain)
                   initial_state))).
  - split; intros x I; destruct I.
  - vm_compute. reflexivity.
Defined.

Lemma failure_after_navigation_leaks_witness :
  let run := POST Sample.env_shot_fails (Sample.request Sample.body_shot)
               initial_state in
  In (next_id initial_state) (open_contexts (snd (fst run))) /\
  ((forall p, ~ In (EvPageClose p true) (snd run)) ->
   In (S (next_id initial_state)) (open_pages (snd (fst run)))).
Proof.
  intro run.
  apply (@failure_after_navigation_leaks Sample.env_shot_fails
           (Sample.request Sample.body_shot) initial_state
           (fst (fst run)) (snd (fst run)) (snd run)).
  - reflexivity.
  - exists Sample.the_url, 20000%Z, true. vm_compute. in_list.
  - reflexivity.
Defined.

Lemma POST_result_assembled_witness :
  let env := Sample.env in
  let req := Sample.request Sample.body_shot in
  let r := Runs.shot_result in
  exists html doc article doc' status,
    ext_content env = Ok html /\
    ext_JSDOM env html (ext_url env) = Ok doc /\
    ext_Readability env doc = Ok (article, doc') /\
    let a := assemble env (field (req_json env req) "url") (ext_url env)
               status doc' article in
    r = a \/
    exists buf, ext_screenshot env = Ok buf /\
                r = with_screenshot a (Buffer_base64 env buf) (str "image/png").
Proof.
  intros env req r.
  apply (@POST_result_assembled env req initial_state r Runs.settled
           (snd (POST env req initial_state))).
  vm_compute. reflexivity.
Defined.

(** ** Structured data on the program *)

(** The parser removes every script from the document before line 96
    queries it: whatever ld+json scripts the rendered page holds, the
    [jsonLd] array of every result is empty. *)
Theorem parsed_document_has_no_jsonLd (env : Env) (req : Request)
    (st : State) (r : Result) (st' : State) (evs : list Event) :
  Readability_removes_scripts env ->
  POST env req st = (NextResponse_json (ResultBody r) 200, st', evs) ->
  r_jsonLd r = [].
Proof.
  intros C H. destruct st as [slot nid ctxs pages].
  exec_in H; injection H as <- <- <-;
    cbn [with_screenshot assemble r_jsonLd fst snd].
  all: match goal with
       | E : ext_Readability _ _ = Ok (_, ?d) |- _ =>
           rewrite (C _ _ _ E)
       end; reflexivity.
Qed.

Lemma parsed_document_has_no_jsonLd_witness :
  Readability_removes_scripts Sample.env /\
  In (Some (str "{oops")) (doc_ld_json Sample.document) /\
  r_jsonLd Runs.plain_result = [].
Proof.
  assert (C : Readability_removes_scripts Sample.env).
  { intros doc article doc' E. injection E as _ <-. reflexivity. }
  split; [exact C|]. split; [vm_compute; in_list|].
  apply (@parsed_document_has_no_jsonLd Sample.env
           (Sample.request Sample.body_plain) initial_state
           Runs.plain_result Runs.settled
           (snd (POST Sample.env (Sample.request Sample.body_plain)
                   initial_state)) C).
  vm_compute. reflexivity.
Defined.
